(** * The bracketed-label tokenizer [createLabel]

    A shallow embedding of the label tokenizer (a fork of micromark's
    [factory-label]) and the properties of its state machine.

    The tokenizer is a closure over two counters, [size] and [balance], and
    over the [effects] interface of its caller.  Each of its six state
    functions takes one input unit and ends either by returning the state
    function that is to receive the next unit ([return label]), by handing
    the same unit to another state function ([return atBreak(code)]), by
    returning the caller's [ok], or by calling the caller's [nok] on the
    unit.  The embedding keeps that shape: every state function is one
    definition in a small state monad over the closure's variables and the
    stream of [effects] calls, and yields the way it ends as an [Outcome]. *)

From Stdlib Require Import ZArith List String Bool Lia.
Import ListNotations.
Local Open Scope string_scope.
Local Open Scope list_scope.
Local Open Scope Z_scope.

(** ** Input units and the constants table *)

(** An input unit: a character code, or [null] ([None]). *)
Definition Code : Type := option Z.

(** [a === b] on input units. *)
Definition code_eqb (a b : Code) : bool :=
  match a, b with
  | Some x, Some y => x =? y
  | None, None => true
  | _, _ => false
  end.

(** The part of the [Codes] table of [./constants] that the tokenizer reads.
    The table itself is not among the sources, so the tokenizer below takes
    it as a parameter. *)
Record Constants : Type := {
  EOF : Code;
  openingSquareBracket : Code;
  backSlash : Code;
  closingSquareBracket : Code
}.

(** ** The effects interface and the closure's variables *)

(** One call on the [effects] interface.  The second argument of
    [effects.enter('chunkText', { contentType: 'text' })] plays no part in
    the scan and is left out. *)
Inductive Event : Type :=
| Enter (t : string)
| Consume (code : Code)
| Exit (t : string).

(** The mutable variables of one [createLabel] call, and the calls made on
    [effects] so far, oldest first.  The counters are JavaScript numbers that
    only ever move by one from zero, hence exact integers. *)
Record Ctx : Type := {
  size : Z;
  balance : Z;
  events : list Event
}.

(** [let size = 0], [let balance = 0], nothing emitted. *)
Definition init : Ctx := {| size := 0; balance := 0; events := [] |}.

(** A computation that reads and updates the closure's variables. *)
Definition M (A : Type) : Type := Ctx -> A * Ctx.

Definition ret {A : Type} (a : A) : M A := fun ctx => (a, ctx).

Definition bind {A B : Type} (m : M A) (k : A -> M B) : M B :=
  fun ctx => let (a, ctx') := m ctx in k a ctx'.

Declare Scope tok_scope.
Delimit Scope tok_scope with tok.
Notation "x <- m ;; k" := (bind m (fun x => k))
  (at level 61, m at next level, right associativity) : tok_scope.
Notation "m ;; k" := (bind m (fun _ => k))
  (at level 61, right associativity) : tok_scope.
Local Open Scope tok_scope.

Definition emit (e : Event) : M unit :=
  fun ctx => (tt, {| size := size ctx; balance := balance ctx;
                     events := events ctx ++ [e] |}).

(** [effects.enter(t)], [effects.consume(code)], [effects.exit(t)]. *)
Definition enter (t : string) : M unit := emit (Enter t).
Definition consume (code : Code) : M unit := emit (Consume code).
Definition exit (t : string) : M unit := emit (Exit t).

(** The value of [size]. *)
Definition get_size : M Z := fun ctx => (size ctx, ctx).

(** [size++] as a statement. *)
Definition incr_size : M unit :=
  fun ctx => (tt, {| size := size ctx + 1; balance := balance ctx;
                     events := events ctx |}).

(** [++balance]: increments, and yields the new value. *)
Definition pre_incr_balance : M Z :=
  fun ctx => (balance ctx + 1,
              {| size := size ctx; balance := balance ctx + 1;
                 events := events ctx |}).

(** [balance--]: decrements, and yields the old value. *)
Definition post_decr_balance : M Z :=
  fun ctx => (balance ctx,
              {| size := size ctx; balance := balance ctx - 1;
                 events := events ctx |}).

(** [a && m]: the right operand runs only when the left one holds. *)
Definition and_then (a : bool) (m : M bool) : M bool :=
  if a then m else ret false.
Infix "&&&" := and_then (at level 40, left associativity) : tok_scope.

(** ** The state functions *)

(** The state functions of the tokenizer, as values that can be returned. *)
Inductive State : Type :=
| Start | AfterStart | AtBreak | Label | AtClosingBrace | LabelEscape.

(** The way a state function ends on the unit [code] it was given. *)
Inductive Outcome : Type :=
| Return (s : State)      (* return s        *)
| Call (s : State)        (* return s(code)  *)
| ReturnOk                (* return ok       *)
| CallNok                 (* return nok(code) *)
| Throw (msg : string).   (* throw new Error(msg) *)

Section CreateLabel.

Variable Codes : Constants.
(** [markdownLineEnding] of micromark-util-character. *)
Variable markdownLineEnding : Code -> bool.
Variables type markerType stringType : string.
(** An omitted [disallowEol] is [undefined], which the one test of it
    treats as [false]. *)
Variable disallowEol : bool.

Definition start (code : Code) : M Outcome :=
  if negb (code_eqb code (openingSquareBracket Codes))
  then ret (Throw "expected `[`")
  else
    enter type ;;
    enter markerType ;;
    consume code ;;
    exit markerType ;;
    ret (Return AfterStart).

Definition afterStart (code : Code) : M Outcome :=
  if code_eqb code (closingSquareBracket Codes)
  then
    enter markerType ;;
    consume code ;;
    exit markerType ;;
    exit type ;;
    ret ReturnOk
  else
    enter stringType ;;
    ret (Call AtBreak).

Definition atBreak (code : Code) : M Outcome :=
  sz <- get_size ;;
  if code_eqb code (EOF Codes) || (999 <? sz)
  then ret CallNok
  else
    closes <- code_eqb code (closingSquareBracket Codes)
              &&& (b <- post_decr_balance ;; ret (b =? 0)) ;;
    if closes
    then ret (Call AtClosingBrace)
    else
      if markdownLineEnding code
      then
        if disallowEol
        then ret CallNok
        else
          enter "lineEnding" ;;
          consume code ;;
          exit "lineEnding" ;;
          ret (Return AtBreak)
      else
        enter "chunkText" ;;
        ret (Call Label).

Definition label (code : Code) : M Outcome :=
  sz <- get_size ;;
  if code_eqb code (EOF Codes) || markdownLineEnding code || (999 <? sz)
  then
    exit "chunkText" ;;
    ret (Call AtBreak)
  else
    deep <- code_eqb code (openingSquareBracket Codes)
            &&& (b <- pre_incr_balance ;; ret (3 <? b)) ;;
    if deep
    then ret CallNok
    else
      closes <- code_eqb code (closingSquareBracket Codes)
                &&& (b <- post_decr_balance ;; ret (b =? 0)) ;;
      if closes
      then
        exit "chunkText" ;;
        ret (Call AtClosingBrace)
      else
        consume code ;;
        ret (Return (if code_eqb code (backSlash Codes)
                     then LabelEscape else Label)).

Definition atClosingBrace (code : Code) : M Outcome :=
  exit stringType ;;
  enter markerType ;;
  consume code ;;
  exit markerType ;;
  exit type ;;
  ret ReturnOk.

Definition labelEscape (code : Code) : M Outcome :=
  if code_eqb code (openingSquareBracket Codes)
     || code_eqb code (backSlash Codes)
     || code_eqb code (closingSquareBracket Codes)
  then
    consume code ;;
    incr_size ;;
    ret (Return Label)
  else ret (Call Label).

(** The function a state value stands for. *)
Definition body (s : State) : Code -> M Outcome :=
  match s with
  | Start => start
  | AfterStart => afterStart
  | AtBreak => atBreak
  | Label => label
  | AtClosingBrace => atClosingBrace
  | LabelEscape => labelEscape
  end.

(** ** Driving the tokenizer *)

(** What the caller sees once the state function it fed a unit to has
    come back. *)
Inductive Result : Type :=
| Await (s : State)       (* [s] was returned and receives the next unit *)
| Succeeded               (* [ok] was returned *)
| Failed (code : Code)    (* [nok(code)] was called *)
| Thrown (msg : string).

(** [s(code)], following the calls from one state function to the next on
    the same unit.  [depth] bounds the length of that chain of calls;
    [None] when it is exceeded. *)
Fixpoint call (depth : nat) (s : State) (code : Code) : M (option Result) :=
  match depth with
  | O => ret None
  | S depth' =>
      o <- body s code ;;
      match o with
      | Return s' => ret (Some (Await s'))
      | Call s' => call depth' s' code
      | ReturnOk => ret (Some Succeeded)
      | CallNok => ret (Some (Failed code))
      | Throw msg => ret (Some (Thrown msg))
      end
  end.

(** No chain of calls is longer than four:
    [afterStart -> atBreak -> label -> atClosingBrace]. *)
Definition feed (s : State) (code : Code) : M (option Result) :=
  call 4 s code.

(** The driver: feeds the units of [input] one by one to the current
    state, until the tokenizer has left through [ok], [nok] or an
    exception.  Yields the result, the units not read, and the closure's
    variables. *)
Fixpoint run (s : State) (input : list Code) (ctx : Ctx)
  : option Result * list Code * Ctx :=
  match input with
  | [] => (Some (Await s), [], ctx)
  | code :: rest =>
      match feed s code ctx with
      | (Some (Await s'), ctx') => run s' rest ctx'
      | (r, ctx') => (r, rest, ctx')
      end
  end.

(** [createLabel(...)] returns [start] over fresh counters. *)
Definition createLabel : State * Ctx := (Start, init).

(** One whole invocation on [input]. *)
Definition tokenize (input : list Code) : option Result * list Code * Ctx :=
  run (fst createLabel) input (snd createLabel).

End CreateLabel.

(** ** The constants of the repository *)

(** Modelled from the spec: the [Codes] table of [./constants] and
    micromark's [markdownLineEnding] are not among the sources.  The units
    are Unicode code points, so that the brackets and the backslash are 91,
    93 and 92; end of input is the sentinel [null]; the line endings are the
    three units standing for carriage return, line feed and the two
    together, which micromark numbers -5, -4 and -3. *)
Definition micromark : Constants := {|
  EOF := None;
  openingSquareBracket := Some 91;
  backSlash := Some 92;
  closingSquareBracket := Some 93
|}.

(** Modelled from the spec: the classification predicate of the scanning
    library, [code !== null && code < -2]. *)
Definition markdownLineEnding (code : Code) : bool :=
  match code with
  | Some c => c <? -2
  | None => false
  end.

(** The code points of a piece of source text. *)
Fixpoint units (s : string) : list Code :=
  match s with
  | EmptyString => []
  | String a rest => Some (Z.of_N (Ascii.N_of_ascii a)) :: units rest
  end.

(** The line-feed unit. *)
Definition LF : Code := Some (-4).

(** The tokenizer over the repository's constants, with span tags as a
    caller might pass them. *)
Definition tokenize_codes (disallowEol : bool) (input : list Code)
  : option Result * list Code * Ctx :=
  tokenize micromark markdownLineEnding "label" "marker" "string" disallowEol
    input.

(** ** Spans *)

(** The effect of one [effects] call on the stack of open spans, innermost
    first: [enter] opens a span, [exit] closes the innermost span and must
    name it, [consume] leaves the spans alone. *)
Definition span_step (open : option (list string)) (e : Event)
  : option (list string) :=
  match open, e with
  | Some st, Enter t => Some (t :: st)
  | Some st, Consume _ => Some st
  | Some (t' :: st), Exit t => if String.eqb t t' then Some st else None
  | _, _ => None
  end.

(** The spans left open by a stream of calls; [None] when some [exit] did
    not name the innermost open span. *)
Definition open_spans (evs : list Event) : option (list string) :=
  fold_left span_step evs (Some []).

(** Balanced and strictly nested: every [exit] closes the innermost open
    span, of its own type, and no span stays open. *)
Definition well_nested (evs : list Event) : bool :=
  match open_spans evs with
  | Some [] => true
  | _ => false
  end.

(** The types of the spans a stream of calls opened, in order. *)
Fixpoint entered (evs : list Event) : list string :=
  match evs with
  | [] => []
  | Enter t :: evs' => t :: entered evs'
  | _ :: evs' => entered evs'
  end.

(** The units a stream of calls consumed, in order. *)
Fixpoint consumed (evs : list Event) : list Code :=
  match evs with
  | [] => []
  | Consume c :: evs' => c :: consumed evs'
  | _ :: evs' => consumed evs'
  end.

(** ** Assumptions on the constants *)

(** The four constants are pairwise different. *)
Definition distinct_codes (K : Constants) : bool :=
  negb (code_eqb (EOF K) (openingSquareBracket K))
  && negb (code_eqb (EOF K) (backSlash K))
  && negb (code_eqb (EOF K) (closingSquareBracket K))
  && negb (code_eqb (openingSquareBracket K) (backSlash K))
  && negb (code_eqb (openingSquareBracket K) (closingSquareBracket K))
  && negb (code_eqb (backSlash K) (closingSquareBracket K)).

(** None of the four constants is a line ending. *)
Definition no_eol_codes (K : Constants) (eol : Code -> bool) : bool :=
  negb (eol (EOF K)) && negb (eol (openingSquareBracket K))
  && negb (eol (backSlash K)) && negb (eol (closingSquareBracket K)).

(** Both together: what the properties below ask of a constants table and
    of a line-ending predicate. *)
Definition sane_codes (K : Constants) (eol : Code -> bool) : bool :=
  distinct_codes K && no_eol_codes K eol.

(** A unit that is content and nothing else: not end of input, not a line
    ending, neither bracket, not a backslash. *)
Definition ordinary (K : Constants) (eol : Code -> bool) (c : Code) : bool :=
  negb (code_eqb c (EOF K)) && negb (eol c)
  && negb (code_eqb c (openingSquareBracket K))
  && negb (code_eqb c (backSlash K))
  && negb (code_eqb c (closingSquareBracket K)).

(** The units [labelEscape] takes as escaped. *)
Definition escapable (K : Constants) (c : Code) : bool :=
  code_eqb c (openingSquareBracket K) || code_eqb c (backSlash K)
  || code_eqb c (closingSquareBracket K).

(** The states in which the tokenizer waits for a unit inside the
    brackets. *)
Definition inside (s : State) : bool :=
  match s with
  | AfterStart | AtBreak | Label | LabelEscape => true
  | Start | AtClosingBrace => false
  end.

(** ** The invariant of a waiting tokenizer *)

(** The spans open while the tokenizer waits in state [s]. *)
Definition spans_at (type stringType : string) (s : State) : list string :=
  match s with
  | Start => []
  | AfterStart => [type]
  | AtBreak | AtClosingBrace => [stringType; type]
  | Label | LabelEscape => ["chunkText"; stringType; type]
  end.

(** The largest value of [size] with which the tokenizer waits in [s]. *)
Definition size_cap (s : State) : Z :=
  match s with
  | Start | AfterStart => 0
  | AtBreak | LabelEscape => 999
  | Label | AtClosingBrace => 1000
  end.

(** The largest value of [balance] with which the tokenizer waits in [s]. *)
Definition balance_cap (s : State) : Z :=
  match s with
  | Start | AfterStart => 0
  | _ => 3
  end.

(** What holds of the closure's variables and of the emitted calls whenever
    the tokenizer waits for a unit in state [s]. *)
Definition waiting (type stringType : string) (s : State) (ctx : Ctx) : Prop :=
  s <> AtClosingBrace
  /\ 0 <= size ctx <= size_cap s
  /\ 0 <= balance ctx <= balance_cap s
  /\ open_spans (events ctx) = Some (spans_at type stringType s).

(** What holds once the tokenizer has come back from a unit with result
    [r]. *)
Definition settled (type stringType : string)
  (r : option Result) (ctx : Ctx) : Prop :=
  match r with
  | Some (Await s) => waiting type stringType s ctx
  | Some Succeeded =>
      -1 <= balance ctx <= 0 /\ open_spans (events ctx) = Some []
  | Some (Failed _) =>
      (0 <= balance ctx <= 3
       /\ open_spans (events ctx) = Some [stringType; type])
      \/ (balance ctx = 4
          /\ open_spans (events ctx) = Some ["chunkText"; stringType; type])
  | Some (Thrown _) => balance ctx = 0 /\ open_spans (events ctx) = Some []
  | None => False
  end.

(** What a state emits on a unit it does not consume before the scan is
    back in [atBreak]: [afterStart] opens the content span, [label] (also
    when reached through [labelEscape]) closes its text chunk. *)
Definition resume_trail (stringType : string) (s : State) : list Event :=
  match s with
  | AfterStart => [Enter stringType]
  | Label | LabelEscape => [Exit "chunkText"]
  | _ => []
  end.

(** [ctx] after the calls [evs] and with the counters set to [sz] and [b]. *)
Definition after (ctx : Ctx) (sz b : Z) (evs : list Event) : Ctx :=
  {| size := sz; balance := b; events := events ctx ++ evs |}.

(** [n] escaped closing brackets. *)
Fixpoint escapes (K : Constants) (n : nat) : list Code :=
  match n with
  | O => []
  | S n' => backSlash K :: closingSquareBracket K :: escapes K n'
  end.

(** ** Reading the consumed units *)

(** The innermost span of a stack of open spans. *)
Definition innermost (open : option (list string)) : option string :=
  match open with
  | Some (t :: _) => Some t
  | _ => None
  end.

(** One [effects] call, on the open spans and on the record of where each
    unit was consumed. *)
Definition place_step
    (st : option (list string) * list (Code * option string)) (e : Event)
  : option (list string) * list (Code * option string) :=
  (span_step (fst st) e,
   match e with
   | Consume c => snd st ++ [(c, innermost (fst st))]
   | _ => snd st
   end).

(** Every consumed unit of a stream of calls, with the innermost span that
    was open when it was consumed. *)
Definition places (evs : list Event) : list (Code * option string) :=
  snd (fold_left place_step evs (Some [], [])).

(** Where a unit of the content of a label belongs: a line ending in a
    line-ending span, any other unit in a text chunk. *)
Definition content_place (eol : Code -> bool) (c : Code)
  : Code * option string :=
  (c, Some (if eol c then "lineEnding" else "chunkText")).

(** Where the units of a label belong: the opening bracket in a marker
    span, the units of the content after it each at its place and, when
    the label is [closed], the closing bracket in a marker span. *)
Definition label_places (K : Constants) (eol : Code -> bool)
    (markerType : string) (content : list Code) (closed : bool)
  : list (Code * option string) :=
  (openingSquareBracket K, Some markerType)
  :: map (content_place eol) content
  ++ (if closed then [(closingSquareBracket K, Some markerType)] else []).

(** One consumed unit, on the count of escaped units and on whether the
    last unit was a backslash that still waits for its follower. *)
Definition esc_step (K : Constants) (st : Z * bool) (c : Code) : Z * bool :=
  if snd st && escapable K c
  then (fst st + 1, false)
  else (fst st, code_eqb c (backSlash K)).

(** The number of escaped units in a sequence of units, and whether the
    sequence ends in a backslash that escapes nothing yet. *)
Definition escaped_units (K : Constants) (cs : list Code) : Z * bool :=
  fold_left (esc_step K) cs (0, false).

(** [labelEscape], as a test on states. *)
Definition is_escape (s : State) : bool :=
  match s with
  | LabelEscape => true
  | _ => false
  end.

(** The nesting depth after the units [cs], read from depth [b]: an
    opening bracket goes one level down, a closing bracket one level up.
    [None] when a bracket would open a fourth level or close a level that
    is not open. *)
Fixpoint depth_after (K : Constants) (b : Z) (cs : list Code) : option Z :=
  match cs with
  | [] => Some b
  | c :: cs' =>
      if code_eqb c (openingSquareBracket K)
      then if 3 <? b + 1 then None else depth_after K (b + 1) cs'
      else if code_eqb c (closingSquareBracket K)
           then if b =? 0 then None else depth_after K (b - 1) cs'
           else depth_after K b cs'
  end.

(** Units of a text without escapes: ordinary units and the two
    brackets. *)
Definition plain (K : Constants) (eol : Code -> bool) (c : Code) : bool :=
  ordinary K eol c || code_eqb c (openingSquareBracket K)
  || code_eqb c (closingSquareBracket K).

(** The calls around the two brackets of a label. *)
Definition opening_marker (K : Constants) (type markerType : string)
  : list Event :=
  [Enter type; Enter markerType; Consume (openingSquareBracket K);
   Exit markerType].

Definition closing_marker (K : Constants) (type markerType : string)
  : list Event :=
  [Enter markerType; Consume (closingSquareBracket K); Exit markerType;
   Exit type].

(** Two contexts with the same counters and the same units consumed. *)
Definition same_scan (ctx ctx2 : Ctx) : Prop :=
  size ctx = size ctx2 /\ balance ctx = balance ctx2
  /\ consumed (events ctx) = consumed (events ctx2).

(** * Properties *)

(** ** Tools *)

Lemma code_eqb_spec (a b : Code) : reflect (a = b) (code_eqb a b).
Proof.
  destruct a as [x|], b as [y|]; simpl; try (constructor; congruence).
  destruct (Z.eqb_spec x y); constructor; congruence.
Qed.

Lemma code_eqb_refl (a : Code) : code_eqb a a = true.
Proof. now destruct (code_eqb_spec a a). Qed.

Lemma code_eqb_neq (a b : Code) : a <> b -> code_eqb a b = false.
Proof. now destruct (code_eqb_spec a b). Qed.

Lemma open_spans_snoc (evs : list Event) (e : Event) :
  open_spans (evs ++ [e]) = span_step (open_spans evs) e.
Proof. unfold open_spans. now rewrite fold_left_app. Qed.

(** Unfolds one unit's worth of tokenizer down to the tests it makes. *)
Ltac unfold_tok :=
  unfold feed, call, body, start, afterStart, atBreak, label, atClosingBrace,
    labelEscape, and_then, enter, exit, consume, emit, get_size,
    incr_size, pre_incr_balance, post_decr_balance, bind, ret in *.

Ltac tidy := cbn [fst snd size balance events negb orb andb].
Ltac tidy_in H := cbn [fst snd size balance events negb orb andb] in H.

Ltac prune := try congruence; try lia.

(** Decides the next test in the equation [H], dropping the impossible
    branches at once. *)
Ltac split_in H :=
  match type of H with
  | context [code_eqb ?a ?b] => destruct (code_eqb_spec a b); prune
  | context [Z.ltb ?x ?y] => destruct (Z.ltb_spec x y); prune
  | context [Z.eqb ?x ?y] => destruct (Z.eqb_spec x y); prune
  | context [orb ?a _] => destruct a eqn:?; prune
  | context [if ?b then _ else _] => destruct b eqn:?; prune
  end.

Ltac run_body H := tidy_in H; repeat (split_in H; tidy_in H).

(** Replays the emitted calls on the stack of open spans [H] speaks of. *)
Ltac spans H :=
  rewrite ?open_spans_snoc, H;
  repeat (progress (cbn [span_step]; rewrite ?String.eqb_refl)).

(** ** One unit *)

Section Steps.

Variable Codes : Constants.
Variable eol : Code -> bool.
Variables type markerType stringType : string.

(** A waiting tokenizer that is fed a unit comes back settled; in
    particular no chain of calls is longer than [feed] allows. *)
Lemma feed_settles (disallowEol : bool) (s : State) (c : Code) (ctx : Ctx) :
  waiting type stringType s ctx ->
  settled type stringType
    (fst (feed Codes eol type markerType stringType disallowEol s c ctx))
    (snd (feed Codes eol type markerType stringType disallowEol s c ctx)).
Proof.
  intros (Hs & Hsz & Hb & Ho). destruct ctx as [sz b evs].
  unfold size, balance, events in *.
  destruct (feed _ _ _ _ _ _ _ _ _) as [r ctx'] eqn:E. tidy.
  destruct s; try congruence; unfold size_cap, balance_cap, spans_at in *;
    unfold_tok; run_body E; injection E as <- <-;
    unfold settled, waiting, inside, size_cap, balance_cap, spans_at; tidy;
    spans Ho; intuition (auto; try congruence; try lia).
Qed.

(** Whatever the state and the counters, [feed] comes back with a result. *)
Lemma feed_total (disallowEol : bool) (s : State) (c : Code) (ctx : Ctx) :
  fst (feed Codes eol type markerType stringType disallowEol s c ctx) <> None.
Proof.
  destruct ctx as [sz b evs].
  destruct (feed _ _ _ _ _ _ _ _ _) as [r ctx'] eqn:E. tidy.
  destruct s; unfold_tok; run_body E; injection E as <- <-; discriminate.
Qed.

(** The state that is returned waits inside the brackets. *)
Lemma feed_await_inside (disallowEol : bool) (s s' : State) (c : Code)
    (ctx : Ctx) :
  fst (feed Codes eol type markerType stringType disallowEol s c ctx)
    = Some (Await s') ->
  inside s' = true.
Proof.
  destruct ctx as [sz b evs].
  destruct (feed _ _ _ _ _ _ _ _ _) as [r ctx'] eqn:E. tidy.
  destruct s; unfold_tok; run_body E; injection E as <- <-; intros [= <-];
    reflexivity.
Qed.

(** [nok] is called on the very unit that was fed. *)
Lemma call_failed_unit (disallowEol : bool) (n : nat) (s : State)
    (c c' : Code) (ctx : Ctx) :
  fst (call Codes eol type markerType stringType disallowEol n s c ctx)
    = Some (Failed c') ->
  c' = c.
Proof.
  revert s ctx. induction n as [|n IH]; intros s ctx; simpl.
  - discriminate.
  - unfold bind at 1. destruct (body _ _ _ _ _ _ _ _ _) as [o ctx1].
    destruct o; simpl; try discriminate.
    + apply IH.
    + now intros [= <-].
Qed.

End Steps.

(** ** The constants *)

Lemma sane_codes_facts (K : Constants) (eol : Code -> bool) :
  sane_codes K eol = true ->
  (EOF K <> openingSquareBracket K /\ EOF K <> backSlash K
   /\ EOF K <> closingSquareBracket K
   /\ openingSquareBracket K <> backSlash K
   /\ openingSquareBracket K <> closingSquareBracket K
   /\ backSlash K <> closingSquareBracket K)
  /\ (eol (EOF K) = false /\ eol (openingSquareBracket K) = false
      /\ eol (backSlash K) = false /\ eol (closingSquareBracket K) = false).
Proof.
  unfold sane_codes, distinct_codes, no_eol_codes.
  rewrite !andb_true_iff, !negb_true_iff. intros H.
  repeat match goal with
         | H : _ /\ _ |- _ => destruct H
         | H : code_eqb ?a ?b = false |- _ =>
             destruct (code_eqb_spec a b); [discriminate|clear H]
         end.
  repeat split; assumption.
Qed.

Ltac sane H :=
  destruct (sane_codes_facts _ _ H) as
    ((? & ? & ? & ? & ? & ?) & (? & ? & ? & ?)).

Lemma ordinary_facts (K : Constants) (eol : Code -> bool) (c : Code) :
  ordinary K eol c = true ->
  c <> EOF K /\ eol c = false /\ c <> openingSquareBracket K
  /\ c <> backSlash K /\ c <> closingSquareBracket K.
Proof.
  unfold ordinary. rewrite !andb_true_iff, !negb_true_iff. intros H.
  repeat match goal with
         | H : _ /\ _ |- _ => destruct H
         | H : code_eqb ?a ?b = false |- _ =>
             destruct (code_eqb_spec a b); [discriminate|clear H]
         end.
  repeat split; assumption.
Qed.

Lemma micromark_sane : sane_codes micromark markdownLineEnding = true.
Proof. reflexivity. Qed.

(** Brings the calls appended one by one into one list. *)
Ltac norm_events := unfold after; rewrite <- ?app_assoc; cbn [app].

(** Settles an equation [feed ... = (r, ctx')] whose tests are all decided
    by the context. *)
Ltac by_feed :=
  match goal with
  | |- ?lhs = _ =>
      let r := fresh "r" in let ctx' := fresh "ctx'" in let E := fresh "E" in
      destruct lhs as [r ctx'] eqn:E; unfold_tok; run_body E;
      injection E as <- <-; norm_events; rewrite ?app_nil_r;
      try reflexivity
  end.

(** ** Particular units *)

Section Units.

Variable Codes : Constants.
Variable eol : Code -> bool.
Variables type markerType stringType : string.
Hypothesis Hsane : sane_codes Codes eol = true.

(** End of input inside the brackets. *)
Lemma feed_eof (disallowEol : bool) (s : State) (ctx : Ctx) :
  inside s = true ->
  feed Codes eol type markerType stringType disallowEol s (EOF Codes) ctx
  = (Some (Failed (EOF Codes)),
     after ctx (size ctx) (balance ctx) (resume_trail stringType s)).
Proof.
  intros Hin. sane Hsane. destruct ctx as [sz b evs].
  destruct s; try discriminate; cbn [resume_trail]; by_feed.
Qed.

(** A line ending inside the brackets when line endings are disallowed. *)
Lemma feed_eol_disallowed (s : State) (c : Code) (ctx : Ctx) :
  inside s = true -> eol c = true ->
  feed Codes eol type markerType stringType true s c ctx
  = (Some (Failed c),
     after ctx (size ctx) (balance ctx) (resume_trail stringType s)).
Proof.
  intros Hin Hc. sane Hsane. destruct ctx as [sz b evs].
  destruct s; try discriminate; cbn [resume_trail]; by_feed.
Qed.

(** A line ending inside the brackets when line endings are allowed and
    the size check passes. *)
Lemma feed_eol_allowed (s : State) (c : Code) (ctx : Ctx) :
  inside s = true -> eol c = true -> size ctx <= 999 ->
  feed Codes eol type markerType stringType false s c ctx
  = (Some (Await AtBreak),
     after ctx (size ctx) (balance ctx)
       (resume_trail stringType s
        ++ [Enter "lineEnding"; Consume c; Exit "lineEnding"])).
Proof.
  intros Hin Hc Hsz. sane Hsane. destruct ctx as [sz b evs].
  unfold size in Hsz.
  destruct s; try discriminate; cbn [resume_trail]; by_feed.
Qed.

(** Any unit once [size] has passed the ceiling, in the two states that
    check it. *)
Lemma feed_oversize (disallowEol : bool) (s : State) (c : Code) (ctx : Ctx) :
  s = AtBreak \/ s = Label -> 999 < size ctx ->
  feed Codes eol type markerType stringType disallowEol s c ctx
  = (Some (Failed c),
     after ctx (size ctx) (balance ctx) (resume_trail stringType s)).
Proof.
  intros Hs Hsz. destruct ctx as [sz b evs]. unfold size in Hsz.
  destruct Hs as [-> | ->]; cbn [resume_trail]; by_feed.
Qed.

(** An ordinary unit, in each of the states that can meet one. *)
Lemma feed_ordinary (disallowEol : bool) (s : State) (c : Code) (ctx : Ctx) :
  inside s = true -> ordinary Codes eol c = true -> size ctx <= 999 ->
  feed Codes eol type markerType stringType disallowEol s c ctx
  = (Some (Await Label),
     after ctx (size ctx) (balance ctx)
       (match s with
        | AfterStart => [Enter stringType; Enter "chunkText"; Consume c]
        | AtBreak => [Enter "chunkText"; Consume c]
        | _ => [Consume c]
        end)).
Proof.
  intros Hin Hc Hsz. destruct (ordinary_facts _ _ _ Hc) as (? & ? & ? & ? & ?).
  destruct ctx as [sz b evs]. unfold size in Hsz.
  destruct s; try discriminate; by_feed.
Qed.

(** An opening bracket that is not escaped: it reaches [label], which
    counts it before it looks at the count. *)
Lemma feed_opening (disallowEol : bool) (s : State) (ctx : Ctx) :
  s = AfterStart \/ s = AtBreak \/ s = Label -> size ctx <= 999 ->
  feed Codes eol type markerType stringType disallowEol s
    (openingSquareBracket Codes) ctx
  = if 3 <? balance ctx + 1
    then (Some (Failed (openingSquareBracket Codes)),
          after ctx (size ctx) (balance ctx + 1)
            (match s with
             | AfterStart => [Enter stringType; Enter "chunkText"]
             | AtBreak => [Enter "chunkText"]
             | _ => []
             end))
    else (Some (Await Label),
          after ctx (size ctx) (balance ctx + 1)
            (match s with
             | AfterStart => [Enter stringType; Enter "chunkText"]
             | AtBreak => [Enter "chunkText"]
             | _ => []
             end ++ [Consume (openingSquareBracket Codes)])).
Proof.
  intros Hs Hsz. sane Hsane. destruct ctx as [sz b evs]. unfold size in Hsz.
  tidy. destruct (Z.ltb_spec 3 (b + 1)); destruct Hs as [-> | [-> | ->]];
    by_feed.
Qed.

(** A closing bracket in [label]. *)
Lemma feed_label_closing (disallowEol : bool) (ctx : Ctx) :
  size ctx <= 999 ->
  feed Codes eol type markerType stringType disallowEol Label
    (closingSquareBracket Codes) ctx
  = if balance ctx =? 0
    then (Some Succeeded,
          after ctx (size ctx) (balance ctx - 1)
            [Exit "chunkText"; Exit stringType; Enter markerType;
             Consume (closingSquareBracket Codes); Exit markerType;
             Exit type])
    else (Some (Await Label),
          after ctx (size ctx) (balance ctx - 1)
            [Consume (closingSquareBracket Codes)]).
Proof.
  intros Hsz. sane Hsane. destruct ctx as [sz b evs]. unfold size in Hsz.
  tidy. destruct (Z.eqb_spec b 0); by_feed.
Qed.

(** A closing bracket in [atBreak]: [atBreak] decrements [balance] and,
    unless the old value was zero, hands the bracket to [label], which
    decrements it again. *)
Lemma feed_atBreak_closing (disallowEol : bool) (ctx : Ctx) :
  size ctx <= 999 ->
  feed Codes eol type markerType stringType disallowEol AtBreak
    (closingSquareBracket Codes) ctx
  = if balance ctx =? 0
    then (Some Succeeded,
          after ctx (size ctx) (balance ctx - 1)
            [Exit stringType; Enter markerType;
             Consume (closingSquareBracket Codes); Exit markerType;
             Exit type])
    else if balance ctx =? 1
    then (Some Succeeded,
          after ctx (size ctx) (balance ctx - 2)
            [Enter "chunkText"; Exit "chunkText"; Exit stringType;
             Enter markerType; Consume (closingSquareBracket Codes);
             Exit markerType; Exit type])
    else (Some (Await Label),
          after ctx (size ctx) (balance ctx - 2)
            [Enter "chunkText"; Consume (closingSquareBracket Codes)]).
Proof.
  intros Hsz. sane Hsane. destruct ctx as [sz b evs]. unfold size in Hsz.
  tidy. destruct (Z.eqb_spec b 0); [|destruct (Z.eqb_spec b 1)]; by_feed;
    replace (b - 1 - 1) with (b - 2) by lia; reflexivity.
Qed.

End Units.

(** ** The two brackets of the label *)

(** The opening bracket in [start]. *)
Lemma feed_start_opening (K : Constants) (eol : Code -> bool)
    (type markerType stringType : string) (disallowEol : bool) (ctx : Ctx) :
  feed K eol type markerType stringType disallowEol Start
    (openingSquareBracket K) ctx
  = (Some (Await AfterStart),
     after ctx (size ctx) (balance ctx)
       [Enter type; Enter markerType; Consume (openingSquareBracket K);
        Exit markerType]).
Proof. destruct ctx as [sz b evs]. by_feed. Qed.

(** A closing bracket right after it. *)
Lemma feed_afterStart_closing (K : Constants) (eol : Code -> bool)
    (type markerType stringType : string) (disallowEol : bool) (ctx : Ctx) :
  feed K eol type markerType stringType disallowEol AfterStart
    (closingSquareBracket K) ctx
  = (Some Succeeded,
     after ctx (size ctx) (balance ctx)
       [Enter markerType; Consume (closingSquareBracket K);
        Exit markerType; Exit type]).
Proof. destruct ctx as [sz b evs]. by_feed. Qed.

(** ** The escape state *)

(** [labelEscape] consumes an escapable unit and counts it; it hands any
    other unit to [label] untouched. *)
Lemma labelEscape_cases (K : Constants) (c : Code) (ctx : Ctx) :
  labelEscape K c ctx
  = if escapable K c
    then (Return Label, after ctx (size ctx + 1) (balance ctx) [Consume c])
    else (Call Label, ctx).
Proof.
  unfold labelEscape, escapable. destruct (_ || _ || _); reflexivity.
Qed.

(** A longer chain of calls than needed changes nothing. *)
Lemma call_more (K : Constants) (eol : Code -> bool)
    (type markerType stringType : string) (disallowEol : bool) (n : nat)
    (s : State) (c : Code) (ctx : Ctx) :
  fst (call K eol type markerType stringType disallowEol n s c ctx) <> None ->
  call K eol type markerType stringType disallowEol (S n) s c ctx
  = call K eol type markerType stringType disallowEol n s c ctx.
Proof.
  revert s ctx. induction n as [|n IH]; intros s ctx H.
  - now contradiction H.
  - change (call K eol type markerType stringType disallowEol (S (S n)) s c ctx)
      with (bind (body K eol type markerType stringType disallowEol s c)
              (fun o => match o with
                        | Return s' => ret (Some (Await s'))
                        | Call s' =>
                            call K eol type markerType stringType disallowEol
                              (S n) s' c
                        | ReturnOk => ret (Some Succeeded)
                        | CallNok => ret (Some (Failed c))
                        | Throw msg => ret (Some (Thrown msg))
                        end) ctx).
    cbn [call] in H |- *. unfold bind in H |- *.
    destruct (body _ _ _ _ _ _ _ _ _) as [o ctx1].
    destruct o; try reflexivity. now apply IH.
Qed.

(** [label] never needs a chain of more than three calls. *)
Lemma label_within_three (K : Constants) (eol : Code -> bool)
    (type markerType stringType : string) (disallowEol : bool)
    (c : Code) (ctx : Ctx) :
  fst (call K eol type markerType stringType disallowEol 3 Label c ctx)
  <> None.
Proof.
  destruct ctx as [sz b evs].
  destruct (call _ _ _ _ _ _ _ _ _ _) as [r ctx'] eqn:E. tidy.
  unfold_tok; run_body E; injection E as <- <-; discriminate.
Qed.

(** A unit that [labelEscape] does not take as escaped is handled as
    [label] handles it. *)
Lemma feed_labelEscape_other (K : Constants) (eol : Code -> bool)
    (type markerType stringType : string) (disallowEol : bool)
    (c : Code) (ctx : Ctx) :
  escapable K c = false ->
  feed K eol type markerType stringType disallowEol LabelEscape c ctx
  = feed K eol type markerType stringType disallowEol Label c ctx.
Proof.
  intros Hc. unfold feed.
  rewrite (call_more _ _ _ _ _ _ 3 Label) by apply label_within_three.
  cbn [call body]. unfold bind at 1. rewrite labelEscape_cases, Hc.
  reflexivity.
Qed.

(** An escapable unit after a backslash. *)
Lemma feed_labelEscape_escaped (K : Constants) (eol : Code -> bool)
    (type markerType stringType : string) (disallowEol : bool)
    (c : Code) (ctx : Ctx) :
  escapable K c = true ->
  feed K eol type markerType stringType disallowEol LabelEscape c ctx
  = (Some (Await Label),
     after ctx (size ctx + 1) (balance ctx) [Consume c]).
Proof.
  intros Hc. unfold feed. cbn [call body]. unfold bind at 1.
  rewrite labelEscape_cases, Hc. reflexivity.
Qed.

(** ** Whole inputs *)

Lemma consumed_app (evs evs' : list Event) :
  consumed (evs ++ evs') = consumed evs ++ consumed evs'.
Proof.
  induction evs as [|[t|c|t] evs IH]; simpl; congruence.
Qed.

Lemma resume_trail_consumes_nothing (stringType : string) (s : State) :
  consumed (resume_trail stringType s) = [].
Proof. now destruct s. Qed.

Lemma waiting_init (type stringType : string) :
  waiting type stringType Start init.
Proof. unfold waiting; simpl. repeat split; (discriminate || lia). Qed.

Section Runs.

Variable Codes : Constants.
Variable eol : Code -> bool.
Variables type markerType stringType : string.
Variable disallowEol : bool.

(** Reading [p ++ q] is reading [p] and then, if the tokenizer still waits,
    reading [q]. *)
Lemma run_app (s : State) (p q : list Code) (ctx : Ctx) :
  run Codes eol type markerType stringType disallowEol s (p ++ q) ctx
  = match run Codes eol type markerType stringType disallowEol s p ctx with
    | (Some (Await s'), _, ctx') =>
        run Codes eol type markerType stringType disallowEol s' q ctx'
    | (r, rest, ctx') => (r, rest ++ q, ctx')
    end.
Proof.
  revert s ctx. induction p as [|c p IH]; intros s ctx; simpl.
  - reflexivity.
  - destruct (feed _ _ _ _ _ _ _ _ _) as [[[s'| |c'|msg]|] ctx'];
      solve [apply IH | reflexivity].
Qed.

(** The invariant holds along every run. *)
Lemma run_settles (s : State) (input : list Code) (ctx : Ctx) :
  waiting type stringType s ctx ->
  settled type stringType
    (fst (fst (run Codes eol type markerType stringType disallowEol
                 s input ctx)))
    (snd (run Codes eol type markerType stringType disallowEol s input ctx)).
Proof.
  revert s ctx. induction input as [|c input IH]; intros s ctx H; simpl.
  - exact H.
  - pose proof (feed_settles Codes eol type markerType stringType
                  disallowEol s c ctx H) as Hf.
    destruct (feed _ _ _ _ _ _ _ _ _) as [[[s'| |c'|msg]|] ctx'];
      simpl in Hf |- *; solve [now apply IH | exact Hf].
Qed.

(** A tokenizer that has read something and still waits is inside the
    brackets. *)
Lemma run_await_inside (s s' : State) (input rest : list Code)
    (ctx ctx' : Ctx) :
  input <> [] ->
  run Codes eol type markerType stringType disallowEol s input ctx
  = (Some (Await s'), rest, ctx') ->
  inside s' = true.
Proof.
  revert s ctx. induction input as [|c input IH]; intros s ctx Hne; simpl.
  - now contradiction Hne.
  - destruct (feed _ _ _ _ _ _ _ _ _) as [r ctx1] eqn:E.
    destruct r as [[s1| |c1|msg]|]; try discriminate.
    destruct input as [|c2 input].
    + simpl. intros [= <- _ _].
      apply (feed_await_inside Codes eol type markerType stringType
               disallowEol s s1 c ctx). now rewrite E.
    + apply IH. discriminate.
Qed.

(** A run of ordinary units in [label] is consumed unit by unit. *)
Lemma run_ordinary (content : list Code) (ctx : Ctx) :
  forallb (ordinary Codes eol) content = true -> size ctx <= 999 ->
  run Codes eol type markerType stringType disallowEol Label content ctx
  = (Some (Await Label), [],
     after ctx (size ctx) (balance ctx) (map Consume content)).
Proof.
  revert ctx. induction content as [|c content IH]; intros ctx Hall Hsz.
  - simpl. unfold after. rewrite app_nil_r. now destruct ctx.
  - simpl in Hall. apply andb_true_iff in Hall as [Hc Hall]. simpl.
    rewrite (feed_ordinary Codes eol type markerType stringType
               disallowEol Label c ctx eq_refl Hc Hsz).
    rewrite IH by assumption. unfold after; simpl.
    now rewrite <- app_assoc.
Qed.

End Runs.

(** * Properties of the tokenizer *)

(** C1 (defect of the code).  A closing bracket met in [atBreak] while
    [balance] is not zero is not counted once and kept as content:
    [atBreak] decrements [balance] and hands the bracket to [label], whose
    own test decrements it a second time.  From a [balance] of one the
    bracket thus ends the label; from more it is consumed and [balance]
    has dropped by two.  On a two-line input with one open nested group the
    label ends at the first bracket of the second line and the units after
    that bracket are left unread. *)
Theorem atBreak_closing_bracket_counted_twice :
  (forall (K : Constants) (eol : Code -> bool)
          (type markerType stringType : string) (disallowEol : bool)
          (ctx : Ctx),
      sane_codes K eol = true -> size ctx <= 999 -> balance ctx <> 0 ->
      feed K eol type markerType stringType disallowEol AtBreak
        (closingSquareBracket K) ctx
      = if balance ctx =? 1
        then (Some Succeeded,
              after ctx (size ctx) (balance ctx - 2)
                [Enter "chunkText"; Exit "chunkText"; Exit stringType;
                 Enter markerType; Consume (closingSquareBracket K);
                 Exit markerType; Exit type])
        else (Some (Await Label),
              after ctx (size ctx) (balance ctx - 2)
                [Enter "chunkText"; Consume (closingSquareBracket K)]))
  /\ tokenize_codes false (units "[a[" ++ LF :: units "]b]]")
     = (Some Succeeded, units "b]]",
        {| size := 0; balance := -1;
           events :=
             [Enter "label"; Enter "marker"; Consume (Some 91);
              Exit "marker"; Enter "string"; Enter "chunkText";
              Consume (Some 97); Consume (Some 91); Exit "chunkText";
              Enter "lineEnding"; Consume LF; Exit "lineEnding";
              Enter "chunkText"; Exit "chunkText"; Exit "string";
              Enter "marker"; Consume (Some 93); Exit "marker";
              Exit "label"] |}).
Proof.
  split.
  - intros K eol type markerType stringType disallowEol ctx Hsane Hsz Hb.
    rewrite (feed_atBreak_closing K eol type markerType stringType Hsane
               disallowEol ctx Hsz).
    destruct (Z.eqb_spec (balance ctx) 0); [contradiction|reflexivity].
  - reflexivity.
Qed.

Lemma atBreak_closing_bracket_counted_twice_witness :
  feed micromark markdownLineEnding "label" "marker" "string" false AtBreak
    (closingSquareBracket micromark)
    {| size := 0; balance := 2; events := [] |}
  = (Some (Await Label),
     {| size := 0; balance := 0;
        events := [Enter "chunkText"; Consume (Some 93)] |}).
Proof.
  apply (proj1 atBreak_closing_bracket_counted_twice micromark
           markdownLineEnding "label" "marker" "string" false
           {| size := 0; balance := 2; events := [] |}).
  - reflexivity.
  - simpl; lia.
  - simpl; lia.
Defined.



(** C3.  [size] moves in [labelEscape] only, by one for each escaped unit
    it consumes, and in no other state function.  So a tokenizer whose
    [size] has passed 999 hands the next unit, whatever it is, to [nok]: a
    thousand escaped brackets make the closing bracket after them fail,
    while 999 do not; and ordinary units, however many, leave [size] at
    zero and the label succeeds. *)
Theorem size_counts_escapes_only :
  (forall (K : Constants) (eol : Code -> bool)
          (type markerType stringType : string) (disallowEol : bool)
          (s : State) (c : Code) (ctx : Ctx),
      size (snd (body K eol type markerType stringType disallowEol s c ctx))
      = size ctx
        + match s with
          | LabelEscape => if escapable K c then 1 else 0
          | _ => 0
          end)
  /\ (forall (K : Constants) (eol : Code -> bool)
             (type markerType stringType : string) (disallowEol : bool)
             (input : list Code) (s : State) (ctx : Ctx) (c : Code),
         tokenize K eol type markerType stringType disallowEol input
         = (Some (Await s), [], ctx) ->
         999 < size ctx ->
         fst (fst (tokenize K eol type markerType stringType disallowEol
                     (input ++ [c])))
         = Some (Failed c))
  /\ fst (fst (tokenize_codes false
                 (Some 91 :: escapes micromark 1000 ++ [Some 93])))
     = Some (Failed (Some 93))
  /\ fst (fst (tokenize_codes false
                 (Some 91 :: escapes micromark 999 ++ [Some 93])))
     = Some Succeeded
  /\ (forall (K : Constants) (eol : Code -> bool)
             (type markerType stringType : string) (disallowEol : bool)
             (c : Code) (content : list Code),
         sane_codes K eol = true ->
         forallb (ordinary K eol) (c :: content) = true ->
         tokenize K eol type markerType stringType disallowEol
           (openingSquareBracket K :: (c :: content)
            ++ [closingSquareBracket K])
         = (Some Succeeded, [],
            {| size := 0; balance := -1;
               events :=
                 [Enter type; Enter markerType;
                  Consume (openingSquareBracket K); Exit markerType;
                  Enter stringType; Enter "chunkText"]
                 ++ map Consume (c :: content)
                 ++ [Exit "chunkText"; Exit stringType; Enter markerType;
                     Consume (closingSquareBracket K); Exit markerType;
                     Exit type] |})).
Proof.
  split; [|split; [|split; [|split]]].
  - intros K eol type markerType stringType disallowEol s c [sz b evs].
    destruct (body _ _ _ _ _ _ _ _ _) as [o ctx'] eqn:E.
    unfold escapable.
    destruct s; unfold_tok; run_body E; injection E as <- <-; tidy;
      try lia;
      repeat match goal with
             | |- context [code_eqb ?a ?b] =>
                 destruct (code_eqb_spec a b); prune
             end.
  - intros K eol type markerType stringType disallowEol input s ctx c
      Hrun Hsz.
    pose proof (run_settles K eol type markerType stringType disallowEol
                  Start input init (waiting_init type stringType)) as Hw.
    unfold tokenize, createLabel in *; cbn [fst snd] in *.
    rewrite run_app, Hrun. rewrite Hrun in Hw; cbn [fst snd settled] in Hw.
    destruct Hw as (Hne & Hcap & _).
    assert (Hs : s = AtBreak \/ s = Label)
      by (destruct s; cbn in Hcap; (lia || congruence || auto)).
    cbn [run].
    now rewrite (feed_oversize K eol type markerType stringType disallowEol
                   s c ctx Hs Hsz).
  - vm_compute. reflexivity.
  - vm_compute. reflexivity.
  - intros K eol type markerType stringType disallowEol c content Hsane Hall.
    sane Hsane.
    pose proof Hall as Hall'. cbn [forallb] in Hall'.
    apply andb_true_iff in Hall' as [Hc Hcontent].
    unfold tokenize, createLabel; cbn [fst snd].
    change (openingSquareBracket K :: (c :: content)
            ++ [closingSquareBracket K])
      with ([openingSquareBracket K; c]
            ++ content ++ [closingSquareBracket K]).
    rewrite run_app.
    assert (Hhead :
      run K eol type markerType stringType disallowEol Start
        [openingSquareBracket K; c] init
      = (Some (Await Label), [],
         {| size := 0; balance := 0;
            events := [Enter type; Enter markerType;
                       Consume (openingSquareBracket K); Exit markerType;
                       Enter stringType; Enter "chunkText"; Consume c] |})).
    { cbn [run].
      assert (Hstart :
        feed K eol type markerType stringType disallowEol Start
          (openingSquareBracket K) init
        = (Some (Await AfterStart),
           {| size := 0; balance := 0;
              events := [Enter type; Enter markerType;
                         Consume (openingSquareBracket K);
                         Exit markerType] |})) by by_feed.
      rewrite Hstart.
      rewrite (feed_ordinary K eol type markerType stringType disallowEol
                 AfterStart c _ eq_refl Hc) by (simpl; lia).
      reflexivity. }
    rewrite Hhead, run_app.
    rewrite (run_ordinary K eol type markerType stringType disallowEol
               content _ Hcontent) by (simpl; lia).
    cbn [run after size balance events].
    rewrite (feed_label_closing K eol type markerType stringType Hsane
               disallowEol) by (simpl; lia).
    unfold after; cbn [size balance events map app].
    rewrite <- ?app_assoc. reflexivity.
Qed.

Lemma size_counts_escapes_only_witness :
  tokenize micromark markdownLineEnding "label" "marker" "string" false
    (openingSquareBracket micromark :: units "abc"
     ++ [closingSquareBracket micromark])
  = (Some Succeeded, [],
     {| size := 0; balance := -1;
        events :=
          [Enter "label"; Enter "marker"; Consume (Some 91); Exit "marker";
           Enter "string"; Enter "chunkText"; Consume (Some 97);
           Consume (Some 98); Consume (Some 99); Exit "chunkText";
           Exit "string"; Enter "marker"; Consume (Some 93); Exit "marker";
           Exit "label"] |})
  /\ fst (fst (tokenize micromark markdownLineEnding "label" "marker"
                 "string" false
                 ((Some 91 :: escapes micromark 1000) ++ [Some 93])))
     = Some (Failed (Some 93)).
Proof.
  split.
  - apply (proj2 (proj2 (proj2 (proj2 size_counts_escapes_only)))
             micromark markdownLineEnding "label" "marker" "string" false
             (Some 97) (units "bc")).
    + reflexivity.
    + reflexivity.
  - apply (proj1 (proj2 size_counts_escapes_only)
             micromark markdownLineEnding "label" "marker" "string" false
             (Some 91 :: escapes micromark 1000) Label
             (snd (tokenize_codes false (Some 91 :: escapes micromark 1000)))).
    + vm_compute. reflexivity.
    + vm_compute. reflexivity.
Defined.

(** C4.  On every input that takes the tokenizer to [ok], the calls made
    on [effects] are balanced and strictly nested: each [exit] closes the
    innermost open span and names its type, and no span is left open. *)
Theorem success_spans_well_nested (K : Constants) (eol : Code -> bool)
    (type markerType stringType : string) (disallowEol : bool)
    (input rest : list Code) (ctx : Ctx) :
  tokenize K eol type markerType stringType disallowEol input
  = (Some Succeeded, rest, ctx) ->
  well_nested (events ctx) = true.
Proof.
  intros Hrun.
  pose proof (run_settles K eol type markerType stringType disallowEol
                Start input init (waiting_init type stringType)) as H.
  unfold tokenize, createLabel in Hrun; cbn [fst snd] in Hrun.
  rewrite Hrun in H; cbn [fst snd settled] in H.
  unfold well_nested. now rewrite (proj2 H).
Qed.

Lemma success_spans_well_nested_witness :
  well_nested
    [Enter "label"; Enter "marker"; Consume (Some 91); Exit "marker";
     Enter "string"; Enter "chunkText"; Consume (Some 97);
     Consume (Some 91); Consume (Some 98); Consume (Some 93);
     Exit "chunkText"; Exit "string"; Enter "marker"; Consume (Some 93);
     Exit "marker"; Exit "label"]
  = true.
Proof.
  apply (success_spans_well_nested micromark markdownLineEnding
           "label" "marker" "string" false (units "[a[b]]x") (units "x")
           {| size := 0; balance := -1;
              events :=
                [Enter "label"; Enter "marker"; Consume (Some 91);
                 Exit "marker"; Enter "string"; Enter "chunkText";
                 Consume (Some 97); Consume (Some 91); Consume (Some 98);
                 Consume (Some 93); Exit "chunkText"; Exit "string";
                 Enter "marker"; Consume (Some 93); Exit "marker";
                 Exit "label"] |}).
  vm_compute. reflexivity.
Defined.

(** C5, as amended.  While [size] has not passed 999, an opening bracket
    that is not escaped reaches the test of [label], which increments
    [balance] by one and hands the unit to [nok] exactly when the
    incremented count is above 3; once [size] has passed 999 the bracket
    goes to [nok] through the size check instead, and is not counted.  The
    bracket that opens the label is not counted either:
    [[a[b[c[d[e]]]]]] fails at its fifth bracket, where the count becomes
    4, while on [[a[b[c[d]]]]] the count stops at 3 and the label
    succeeds, as does [[a[b[c]]]]. *)
Theorem nesting_depth_limit :
  (forall (K : Constants) (eol : Code -> bool)
          (type markerType stringType : string) (disallowEol : bool)
          (s : State) (ctx : Ctx),
      sane_codes K eol = true ->
      s = AfterStart \/ s = AtBreak \/ s = Label ->
      (size ctx <= 999 ->
       fst (feed K eol type markerType stringType disallowEol s
              (openingSquareBracket K) ctx)
       = (if 3 <? balance ctx + 1
          then Some (Failed (openingSquareBracket K))
          else Some (Await Label))
       /\ balance (snd (feed K eol type markerType stringType disallowEol s
                          (openingSquareBracket K) ctx))
          = balance ctx + 1)
      /\ (999 < size ctx ->
          fst (feed K eol type markerType stringType disallowEol s
                 (openingSquareBracket K) ctx)
          = Some (Failed (openingSquareBracket K))
          /\ balance (snd (feed K eol type markerType stringType
                             disallowEol s (openingSquareBracket K) ctx))
             = balance ctx))
  /\ tokenize_codes false (units "[a[b[c[d[e]]]]]")
     = (Some (Failed (Some 91)), units "e]]]]]",
        {| size := 0; balance := 4;
           events :=
             [Enter "label"; Enter "marker"; Consume (Some 91);
              Exit "marker"; Enter "string"; Enter "chunkText";
              Consume (Some 97); Consume (Some 91); Consume (Some 98);
              Consume (Some 91); Consume (Some 99); Consume (Some 91);
              Consume (Some 100)] |})
  /\ tokenize_codes false (units "[a[b[c[d]]]]")
     = (Some Succeeded, [],
        {| size := 0; balance := -1;
           events :=
             [Enter "label"; Enter "marker"; Consume (Some 91);
              Exit "marker"; Enter "string"; Enter "chunkText";
              Consume (Some 97); Consume (Some 91); Consume (Some 98);
              Consume (Some 91); Consume (Some 99); Consume (Some 91);
              Consume (Some 100); Consume (Some 93); Consume (Some 93);
              Consume (Some 93); Exit "chunkText"; Exit "string";
              Enter "marker"; Consume (Some 93); Exit "marker";
              Exit "label"] |})
  /\ fst (tokenize_codes false (units "[a[b[c]]]")) = (Some Succeeded, [])
  /\ fst (fst (tokenize_codes false
                 (Some 91 :: escapes micromark 1000 ++ [Some 91])))
     = Some (Failed (Some 91))
  /\ balance (snd (tokenize_codes false
                     (Some 91 :: escapes micromark 1000 ++ [Some 91])))
     = 0.
Proof.
  split; [|repeat (split; [vm_compute; reflexivity|]); vm_compute;
           reflexivity].
  intros K eol type markerType stringType disallowEol s ctx Hsane Hs. split.
  - intros Hsz.
    rewrite (feed_opening K eol type markerType stringType Hsane disallowEol
               s ctx Hs Hsz).
    destruct (3 <? balance ctx + 1); split; reflexivity.
  - intros Hsz. sane Hsane. destruct ctx as [sz b evs]. unfold size in Hsz.
    destruct (feed _ _ _ _ _ _ _ _ _) as [r ctx'] eqn:E. tidy.
    destruct Hs as [-> | [-> | ->]]; unfold_tok; run_body E;
      injection E as <- <-; split; reflexivity.
Qed.

Lemma nesting_depth_limit_witness :
  (fst (feed micromark markdownLineEnding "label" "marker" "string" false
          Label (Some 91) {| size := 0; balance := 3; events := [] |})
   = Some (Failed (Some 91))
   /\ balance
        (snd (feed micromark markdownLineEnding "label" "marker" "string"
                false Label (Some 91)
                {| size := 0; balance := 3; events := [] |}))
      = 4)
  /\ (fst (feed micromark markdownLineEnding "label" "marker" "string"
             false Label (Some 91)
             {| size := 1000; balance := 0; events := [] |})
      = Some (Failed (Some 91))
      /\ balance
           (snd (feed micromark markdownLineEnding "label" "marker"
                   "string" false Label (Some 91)
                   {| size := 1000; balance := 0; events := [] |}))
         = 0).
Proof.
  split.
  - apply (proj1 nesting_depth_limit micromark markdownLineEnding
             "label" "marker" "string" false Label
             {| size := 0; balance := 3; events := [] |}).
    + reflexivity.
    + right; right; reflexivity.
    + simpl; lia.
  - apply (proj1 nesting_depth_limit micromark markdownLineEnding
             "label" "marker" "string" false Label
             {| size := 1000; balance := 0; events := [] |}).
    + reflexivity.
    + right; right; reflexivity.
    + simpl; lia.
Defined.

(** C5, as stated, fails: [[a[b[c[d]]]]] opens three groups inside the
    label, and the tokenizer reaches [ok] on it. *)
Lemma four_opening_brackets_succeed :
  fst (fst (tokenize_codes false (units "[a[b[c[d]]]]"))) = Some Succeeded
  /\ fst (fst (tokenize_codes false (units "[a[b[c[d]]]]")))
     <> Some (Failed (Some 91)).
Proof. split; vm_compute; [reflexivity|discriminate]. Qed.

(** C6.  After the backslash, [labelEscape] consumes an opening bracket, a
    closing bracket or a backslash and increments [size] once; any other
    unit it hands unconsumed to [label], so that the unit is handled
    exactly as [label] handles it.  [[a\]b]] succeeds with the escaped
    bracket inside its one text chunk and a [size] of one; [[a\b]] succeeds
    with the backslash and the [b] as content. *)
Theorem escape_handling :
  (forall (K : Constants) (c : Code) (ctx : Ctx),
      labelEscape K c ctx
      = if escapable K c
        then (Return Label,
              after ctx (size ctx + 1) (balance ctx) [Consume c])
        else (Call Label, ctx))
  /\ (forall (K : Constants) (eol : Code -> bool)
             (type markerType stringType : string) (disallowEol : bool)
             (c : Code) (ctx : Ctx),
         feed K eol type markerType stringType disallowEol LabelEscape c ctx
         = if escapable K c
           then (Some (Await Label),
                 after ctx (size ctx + 1) (balance ctx) [Consume c])
           else feed K eol type markerType stringType disallowEol
                  Label c ctx)
  /\ tokenize_codes false (units "[a\]b]")
     = (Some Succeeded, [],
        {| size := 1; balance := -1;
           events :=
             [Enter "label"; Enter "marker"; Consume (Some 91);
              Exit "marker"; Enter "string"; Enter "chunkText";
              Consume (Some 97); Consume (Some 92); Consume (Some 93);
              Consume (Some 98); Exit "chunkText"; Exit "string";
              Enter "marker"; Consume (Some 93); Exit "marker";
              Exit "label"] |})
  /\ tokenize_codes false (units "[a\b]")
     = (Some Succeeded, [],
        {| size := 0; balance := -1;
           events :=
             [Enter "label"; Enter "marker"; Consume (Some 91);
              Exit "marker"; Enter "string"; Enter "chunkText";
              Consume (Some 97); Consume (Some 92); Consume (Some 98);
              Exit "chunkText"; Exit "string"; Enter "marker";
              Consume (Some 93); Exit "marker"; Exit "label"] |}).
Proof.
  split; [|split; [|split]].
  - apply labelEscape_cases.
  - intros K eol type markerType stringType disallowEol c ctx.
    destruct (escapable K c) eqn:Hc.
    + now apply feed_labelEscape_escaped.
    + now apply feed_labelEscape_other.
  - vm_compute. reflexivity.
  - vm_compute. reflexivity.
Qed.

(** C7.  The empty label is accepted: on a closing bracket [afterStart]
    emits the marker span around the consumed bracket, closes the label
    span and returns [ok].  On [[]] the spans opened are the label span and
    the two marker spans; the content span is never opened. *)
Theorem empty_label_accepted (K : Constants) (eol : Code -> bool)
    (type markerType stringType : string) (disallowEol : bool) :
  (forall ctx : Ctx,
      afterStart K type markerType stringType (closingSquareBracket K) ctx
      = (ReturnOk,
         after ctx (size ctx) (balance ctx)
           [Enter markerType; Consume (closingSquareBracket K);
            Exit markerType; Exit type]))
  /\ tokenize K eol type markerType stringType disallowEol
       [openingSquareBracket K; closingSquareBracket K]
     = (Some Succeeded, [],
        {| size := 0; balance := 0;
           events :=
             [Enter type; Enter markerType;
              Consume (openingSquareBracket K); Exit markerType;
              Enter markerType; Consume (closingSquareBracket K);
              Exit markerType; Exit type] |})
  /\ entered
       (events
          (snd (tokenize K eol type markerType stringType disallowEol
                  [openingSquareBracket K; closingSquareBracket K])))
     = [type; markerType; markerType].
Proof.
  assert (Hrun :
    tokenize K eol type markerType stringType disallowEol
      [openingSquareBracket K; closingSquareBracket K]
    = (Some Succeeded, [],
       {| size := 0; balance := 0;
          events :=
            [Enter type; Enter markerType;
             Consume (openingSquareBracket K); Exit markerType;
             Enter markerType; Consume (closingSquareBracket K);
             Exit markerType; Exit type] |})).
  { unfold tokenize, createLabel; cbn [fst snd run].
    rewrite feed_start_opening, feed_afterStart_closing. reflexivity. }
  split; [|split; [exact Hrun|now rewrite Hrun]].
  intros [sz b evs]. unfold afterStart. rewrite code_eqb_refl.
  unfold_tok. tidy. norm_events. reflexivity.
Qed.

(** C8, as amended.  Inside the brackets a line ending is settled by
    [disallowEol]: when it is set, the unit goes to [nok], unconsumed; when
    it is not set and [size] has not passed 999, the unit is consumed
    between [enter('lineEnding')] and [exit('lineEnding')] and the state
    returned is [atBreak].  [[a], a line feed and [b]] fails at the line
    feed under the first policy and succeeds under the second. *)
Theorem line_ending_policy :
  (forall (K : Constants) (eol : Code -> bool)
          (type markerType stringType : string)
          (s : State) (c : Code) (ctx : Ctx),
      sane_codes K eol = true -> inside s = true -> eol c = true ->
      feed K eol type markerType stringType true s c ctx
      = (Some (Failed c),
         after ctx (size ctx) (balance ctx) (resume_trail stringType s))
      /\ (size ctx <= 999 ->
          feed K eol type markerType stringType false s c ctx
          = (Some (Await AtBreak),
             after ctx (size ctx) (balance ctx)
               (resume_trail stringType s
                ++ [Enter "lineEnding"; Consume c; Exit "lineEnding"]))))
  /\ tokenize_codes true (units "[a" ++ LF :: units "b]")
     = (Some (Failed LF), units "b]",
        {| size := 0; balance := 0;
           events :=
             [Enter "label"; Enter "marker"; Consume (Some 91);
              Exit "marker"; Enter "string"; Enter "chunkText";
              Consume (Some 97); Exit "chunkText"] |})
  /\ tokenize_codes false (units "[a" ++ LF :: units "b]")
     = (Some Succeeded, [],
        {| size := 0; balance := -1;
           events :=
             [Enter "label"; Enter "marker"; Consume (Some 91);
              Exit "marker"; Enter "string"; Enter "chunkText";
              Consume (Some 97); Exit "chunkText"; Enter "lineEnding";
              Consume LF; Exit "lineEnding"; Enter "chunkText";
              Consume (Some 98); Exit "chunkText"; Exit "string";
              Enter "marker"; Consume (Some 93); Exit "marker";
              Exit "label"] |}).
Proof.
  split; [|split]; try (vm_compute; reflexivity).
  intros K eol type markerType stringType s c ctx Hsane Hin Hc. split.
  - now apply feed_eol_disallowed.
  - intros Hsz. now apply feed_eol_allowed.
Qed.

Lemma line_ending_policy_witness :
  feed micromark markdownLineEnding "label" "marker" "string" true Label LF
    {| size := 0; balance := 0; events := [] |}
  = (Some (Failed LF),
     {| size := 0; balance := 0; events := [Exit "chunkText"] |})
  /\ feed micromark markdownLineEnding "label" "marker" "string" false
       Label LF {| size := 0; balance := 0; events := [] |}
     = (Some (Await AtBreak),
        {| size := 0; balance := 0;
           events := [Exit "chunkText"; Enter "lineEnding"; Consume LF;
                      Exit "lineEnding"] |}).
Proof.
  destruct (proj1 line_ending_policy micromark markdownLineEnding
              "label" "marker" "string" Label LF
              {| size := 0; balance := 0; events := [] |})
    as [Hno Hyes].
  - reflexivity.
  - reflexivity.
  - reflexivity.
  - split.
    + exact Hno.
    + apply Hyes. simpl; lia.
Defined.

(** C8, as stated, fails: once a thousand escaped units have been
    consumed, a line ending goes to [nok] although line endings are
    allowed, because the size check of [atBreak] comes first. *)
Lemma line_ending_fails_past_size_ceiling :
  fst (fst (tokenize_codes false (Some 91 :: escapes micromark 1000 ++ [LF])))
  = Some (Failed LF).
Proof. vm_compute. reflexivity. Qed.

(** C9.  When the end of input comes while the tokenizer waits inside the
    brackets, the tokenizer calls [nok] on the end-of-input unit, which it
    has not consumed. *)
Theorem eof_inside_label_fails (K : Constants) (eol : Code -> bool)
    (type markerType stringType : string) (disallowEol : bool)
    (input : list Code) (s : State) (ctx : Ctx) :
  sane_codes K eol = true ->
  input <> [] ->
  tokenize K eol type markerType stringType disallowEol input
  = (Some (Await s), [], ctx) ->
  tokenize K eol type markerType stringType disallowEol (input ++ [EOF K])
  = (Some (Failed (EOF K)), [],
     after ctx (size ctx) (balance ctx) (resume_trail stringType s))
  /\ consumed
       (events
          (snd (tokenize K eol type markerType stringType disallowEol
                  (input ++ [EOF K]))))
     = consumed (events ctx).
Proof.
  intros Hsane Hne Hrun.
  unfold tokenize, createLabel in *; cbn [fst snd] in *.
  pose proof (run_await_inside K eol type markerType stringType disallowEol
                Start s input [] init ctx Hne Hrun) as Hin.
  rewrite run_app, Hrun. cbn [run].
  rewrite (feed_eof K eol type markerType stringType Hsane disallowEol
             s ctx Hin).
  split; [reflexivity|].
  cbn [snd after events].
  now rewrite consumed_app, resume_trail_consumes_nothing, app_nil_r.
Qed.

Lemma eof_inside_label_fails_witness :
  tokenize micromark markdownLineEnding "label" "marker" "string" false
    (units "[abc" ++ [EOF micromark])
  = (Some (Failed None), [],
     {| size := 0; balance := 0;
        events :=
          [Enter "label"; Enter "marker"; Consume (Some 91); Exit "marker";
           Enter "string"; Enter "chunkText"; Consume (Some 97);
           Consume (Some 98); Consume (Some 99); Exit "chunkText"] |}).
Proof.
  apply (eof_inside_label_fails micromark markdownLineEnding
           "label" "marker" "string" false (units "[abc") Label
           {| size := 0; balance := 0;
              events :=
                [Enter "label"; Enter "marker"; Consume (Some 91);
                 Exit "marker"; Enter "string"; Enter "chunkText";
                 Consume (Some 97); Consume (Some 98);
                 Consume (Some 99)] |}).
  - reflexivity.
  - simpl; discriminate.
  - vm_compute. reflexivity.
Defined.



(** * Further properties *)

(** ** Chains of calls and runs *)

(** What every state function hands on to the next holds of the result of
    the whole chain of calls on one unit. *)
Lemma call_chain (K : Constants) (eol : Code -> bool)
    (type markerType stringType : string) (disallowEol : bool) (c : Code)
    (P : State -> Ctx -> Prop) (Q : Result -> Ctx -> Prop) :
  (forall (s : State) (ctx : Ctx), P s ctx ->
     match body K eol type markerType stringType disallowEol s c ctx with
     | (Return s', ctx') => Q (Await s') ctx'
     | (Call s', ctx') => P s' ctx'
     | (ReturnOk, ctx') => Q Succeeded ctx'
     | (CallNok, ctx') => Q (Failed c) ctx'
     | (Throw msg, ctx') => Q (Thrown msg) ctx'
     end) ->
  forall (n : nat) (s : State) (ctx : Ctx) (r : Result) (ctx' : Ctx),
    P s ctx ->
    call K eol type markerType stringType disallowEol n s c ctx
    = (Some r, ctx') ->
    Q r ctx'.
Proof.
  intros Hbody. induction n as [|n IH]; intros s ctx r ctx' HP; simpl.
  - discriminate.
  - unfold bind at 1. specialize (Hbody s ctx HP).
    destruct (body _ _ _ _ _ _ _ _ _) as [o ctx1].
    destruct o; unfold ret; try (intros [= <- <-]; exact Hbody).
    now apply IH.
Qed.

(** Opens the body of a state function into its branches. *)
Ltac by_body :=
  let s := fresh "s" in let ctx := fresh "ctx" in
  intros s ctx;
  let o := fresh "o" in let ctx' := fresh "ctx'" in let E := fresh "E" in
  destruct ctx as [sz b evs];
  destruct (body _ _ _ _ _ _ s _ _) as [o ctx'] eqn:E;
  destruct s; unfold_tok; run_body E; injection E as <- <-; tidy.

Section RunTools.

Variable K : Constants.
Variable eol : Code -> bool.
Variables type markerType stringType : string.
Variable disallowEol : bool.

(** A tokenizer that still waits has read all its input. *)
Lemma run_await_rest (s s' : State) (input rest : list Code)
    (ctx ctx' : Ctx) :
  run K eol type markerType stringType disallowEol s input ctx
  = (Some (Await s'), rest, ctx') ->
  rest = [].
Proof.
  revert s ctx. induction input as [|c input IH]; intros s ctx; simpl.
  - now intros [= _ <- _].
  - destruct (feed _ _ _ _ _ _ _ _ _) as [[[s1| |c1|msg]|] ctx1];
      try discriminate. apply IH.
Qed.

(** A run that has left the tokenizer did so on one unit, fed to a
    tokenizer that was waiting after the units before it. *)
Lemma run_last (s : State) (input rest : list Code) (ctx ctx' : Ctx)
    (r : option Result) :
  run K eol type markerType stringType disallowEol s input ctx
  = (r, rest, ctx') ->
  (forall s', r <> Some (Await s')) ->
  exists (read : list Code) (c : Code) (s1 : State) (ctx1 : Ctx),
    input = read ++ c :: rest
    /\ run K eol type markerType stringType disallowEol s read ctx
       = (Some (Await s1), [], ctx1)
    /\ feed K eol type markerType stringType disallowEol s1 c ctx1
       = (r, ctx').
Proof.
  revert s ctx. induction input as [|c input IH]; intros s ctx; simpl.
  - intros [= <- _ _] H. now contradiction (H s).
  - destruct (feed _ _ _ _ _ _ _ _ _) as [r1 ctx1] eqn:E.
    assert (Hstop : r1 = r /\ input = rest /\ ctx1 = ctx' ->
      exists read c0 s1 ctx2,
        c :: input = read ++ c0 :: rest
        /\ run K eol type markerType stringType disallowEol s read ctx
           = (Some (Await s1), [], ctx2)
        /\ feed K eol type markerType stringType disallowEol s1 c0 ctx2
           = (r, ctx')).
    { intros (<- & <- & <-). exists [], c, s, ctx. now repeat split. }
    destruct r1 as [[s1| |c1|msg]|];
      try (intros [= <- <- <-] _; now apply Hstop).
    intros Hrun Hr. destruct (IH s1 ctx1 Hrun Hr)
      as (read & c0 & s2 & ctx2 & -> & Hread & Hfeed).
    exists (c :: read), c0, s2, ctx2. simpl. rewrite E. now repeat split.
Qed.

(** What holds of a waiting tokenizer and is kept by every unit holds
    along the run. *)
Lemma run_invariant (I : State -> Ctx -> Prop) :
  (forall s c ctx s' ctx', I s ctx ->
     feed K eol type markerType stringType disallowEol s c ctx
     = (Some (Await s'), ctx') -> I s' ctx') ->
  forall input s ctx s' rest ctx', I s ctx ->
    run K eol type markerType stringType disallowEol s input ctx
    = (Some (Await s'), rest, ctx') -> I s' ctx'.
Proof.
  intros Hstep. induction input as [|c input IH]; intros s ctx s' rest ctx' HI;
    simpl.
  - now intros [= <- _ <-].
  - destruct (feed _ _ _ _ _ _ _ _ _) as [[[s1| |c1|msg]|] ctx1] eqn:E;
      try discriminate.
    apply IH. now apply (Hstep s c ctx).
Qed.

End RunTools.

(** ** Every unit read is consumed once *)

(** Gathers the units consumed by calls appended one by one. *)
Ltac gather H :=
  rewrite ?consumed_app; cbn [consumed]; rewrite ?app_nil_r, ?H;
  try reflexivity.

(** A unit is consumed by the state function that returns a state or [ok],
    and by no state function that hands it on, rejects it or throws. *)
Lemma feed_consumes (K : Constants) (eol : Code -> bool)
    (type markerType stringType : string) (disallowEol : bool)
    (s : State) (c : Code) (ctx : Ctx) (r : Result) (ctx' : Ctx) :
  feed K eol type markerType stringType disallowEol s c ctx = (Some r, ctx') ->
  match r with
  | Await _ | Succeeded =>
      consumed (events ctx') = consumed (events ctx) ++ [c]
  | Failed c' => c' = c /\ consumed (events ctx') = consumed (events ctx)
  | Thrown _ => consumed (events ctx') = consumed (events ctx)
  end.
Proof.
  apply (call_chain K eol type markerType stringType disallowEol c
           (fun _ ctx1 => consumed (events ctx1) = consumed (events ctx))
           (fun r ctx1 =>
              match r with
              | Await _ | Succeeded =>
                  consumed (events ctx1) = consumed (events ctx) ++ [c]
              | Failed c' =>
                  c' = c /\ consumed (events ctx1) = consumed (events ctx)
              | Thrown _ => consumed (events ctx1) = consumed (events ctx)
              end));
    [|reflexivity].
  clear s. by_body; intros HP; try split; gather HP.
Qed.

(** The units consumed before a run, followed by the input, are the units
    consumed after it, followed by the unit that was rejected, if any, and
    the units not read. *)
Lemma run_consumes (K : Constants) (eol : Code -> bool)
    (type markerType stringType : string) (disallowEol : bool)
    (input : list Code) (s : State) (ctx : Ctx) :
  match run K eol type markerType stringType disallowEol s input ctx with
  | (Some (Await _), rest, ctx') =>
      rest = []
      /\ consumed (events ctx) ++ input = consumed (events ctx')
  | (Some Succeeded, rest, ctx') =>
      consumed (events ctx) ++ input = consumed (events ctx') ++ rest
  | (Some (Failed c), rest, ctx') =>
      consumed (events ctx) ++ input = consumed (events ctx') ++ c :: rest
  | (Some (Thrown _), rest, ctx') =>
      exists c,
        consumed (events ctx) ++ input = consumed (events ctx') ++ c :: rest
  | (None, _, _) => False
  end.
Proof.
  revert s ctx. induction input as [|c input IH]; intros s ctx; simpl.
  - split; [reflexivity|apply app_nil_r].
  - pose proof (feed_total K eol type markerType stringType disallowEol
                  s c ctx) as Htot.
    destruct (feed _ _ _ _ _ _ _ _ _) as [[r|] ctx1] eqn:E;
      [|now contradiction Htot].
    pose proof (feed_consumes K eol type markerType stringType disallowEol
                  s c ctx r ctx1 E) as Hc.
    destruct r as [s1| |c1|msg].
    + specialize (IH s1 ctx1). rewrite Hc, <- app_assoc in IH. exact IH.
    + now rewrite Hc, <- app_assoc.
    + destruct Hc as [-> ->]. reflexivity.
    + exists c. now rewrite Hc.
Qed.

(** ** Leaving through [ok], and throwing *)

(** [start] on any unit. *)
Lemma feed_start (K : Constants) (eol : Code -> bool)
    (type markerType stringType : string) (disallowEol : bool)
    (c : Code) (ctx : Ctx) :
  feed K eol type markerType stringType disallowEol Start c ctx
  = if code_eqb c (openingSquareBracket K)
    then (Some (Await AfterStart),
          after ctx (size ctx) (balance ctx)
            [Enter type; Enter markerType; Consume c; Exit markerType])
    else (Some (Thrown "expected `[`"), ctx).
Proof.
  destruct ctx as [sz b evs]. unfold feed; cbn [call body].
  unfold bind at 1, start. destruct (code_eqb c _); cbn [negb].
  - unfold_tok. tidy. norm_events. reflexivity.
  - reflexivity.
Qed.

(** No state function but [start] throws. *)
Lemma feed_inside_never_throws (K : Constants) (eol : Code -> bool)
    (type markerType stringType : string) (disallowEol : bool)
    (s : State) (c : Code) (ctx : Ctx) (msg : string) (ctx' : Ctx) :
  s <> Start ->
  feed K eol type markerType stringType disallowEol s c ctx
  <> (Some (Thrown msg), ctx').
Proof.
  intros Hs Hfeed.
  assert (Hbody : forall (s1 : State) (ctx1 : Ctx), s1 <> Start ->
    match body K eol type markerType stringType disallowEol s1 c ctx1 with
    | (Return _, _) | (ReturnOk, _) | (CallNok, _) => True
    | (Call s', _) => s' <> Start
    | (Throw _, _) => False
    end).
  { clear. by_body; intros HP; congruence || exact I. }
  apply (call_chain K eol type markerType stringType disallowEol c
           (fun s1 _ => s1 <> Start)
           (fun r _ => match r with Thrown _ => False | _ => True end))
    in Hfeed; [exact Hfeed| |exact Hs].
  intros s1 ctx1 H1. specialize (Hbody s1 ctx1 H1).
  now destruct (body _ _ _ _ _ _ _ _ _) as [[]].
Qed.

(** The calls already made are never taken back. *)
Lemma feed_extends (K : Constants) (eol : Code -> bool)
    (type markerType stringType : string) (disallowEol : bool)
    (s : State) (c : Code) (ctx : Ctx) (r : Result) (ctx' : Ctx) :
  feed K eol type markerType stringType disallowEol s c ctx = (Some r, ctx') ->
  exists evs, events ctx' = events ctx ++ evs.
Proof.
  apply (call_chain K eol type markerType stringType disallowEol c
           (fun _ ctx1 => exists evs, events ctx1 = events ctx ++ evs)
           (fun _ ctx1 => exists evs, events ctx1 = events ctx ++ evs));
    [|exists []; now rewrite app_nil_r].
  clear s. by_body; intros [pre ->]; rewrite <- ?app_assoc; eexists;
    reflexivity.
Qed.

Lemma run_extends (K : Constants) (eol : Code -> bool)
    (type markerType stringType : string) (disallowEol : bool)
    (input : list Code) (s : State) (ctx : Ctx) :
  exists evs,
    events (snd (run K eol type markerType stringType disallowEol
                   s input ctx))
    = events ctx ++ evs.
Proof.
  revert s ctx. induction input as [|c input IH]; intros s ctx; simpl.
  - exists []. now rewrite app_nil_r.
  - destruct (feed _ _ _ _ _ _ _ _ _) as [[r|] ctx1] eqn:E.
    + destruct (feed_extends _ _ _ _ _ _ _ _ _ _ _ E) as [evs1 H1].
      destruct r as [s1| |c1|msg]; try (exists evs1; exact H1).
      destruct (IH s1 ctx1) as [evs2 H2]. exists (evs1 ++ evs2).
      now rewrite H2, H1, app_assoc.
    + exists []. simpl.
      now contradiction (feed_total K eol type markerType stringType
                           disallowEol s c ctx); rewrite E.
Qed.

(** [ok] is returned on a closing bracket only, right after the calls
    that close the label around it. *)
Lemma feed_succeeds (K : Constants) (eol : Code -> bool)
    (type markerType stringType : string) (disallowEol : bool)
    (s : State) (c : Code) (ctx ctx' : Ctx) :
  s <> AtClosingBrace ->
  feed K eol type markerType stringType disallowEol s c ctx
  = (Some Succeeded, ctx') ->
  c = closingSquareBracket K
  /\ exists pre,
       events ctx' = events ctx ++ pre ++ closing_marker K type markerType.
Proof.
  intros Hs Hfeed.
  apply (call_chain K eol type markerType stringType disallowEol c
           (fun s1 ctx1 =>
              (s1 = AtClosingBrace -> c = closingSquareBracket K)
              /\ exists pre, events ctx1 = events ctx ++ pre)
           (fun r ctx1 =>
              match r with
              | Succeeded =>
                  c = closingSquareBracket K
                  /\ exists pre,
                       events ctx1
                       = events ctx ++ pre
                         ++ closing_marker K type markerType
              | _ => True
              end))
    in Hfeed; [exact Hfeed| |].
  - clear. by_body; intros [Hc [pre ->]]; try exact I;
      try (split; [congruence|]; rewrite <- ?app_assoc; eexists;
           reflexivity).
    + split; [assumption|]. exists pre. subst c.
      now rewrite <- !app_assoc.
    + specialize (Hc eq_refl). split; [assumption|].
      exists (pre ++ [Exit stringType]). subst c.
      now rewrite <- !app_assoc.
  - split; [congruence|]. exists []. now rewrite app_nil_r.
Qed.

(** X1.  Every unit the tokenizer reads is consumed exactly once and in
    order: when it still waits, the units consumed are the whole input;
    when it has returned [ok], they are the input without the units left
    unread; when it has called [nok] or thrown, the unit it did so on is
    not consumed and comes right after the consumed ones. *)
Theorem units_accounted (K : Constants) (eol : Code -> bool)
    (type markerType stringType : string) (disallowEol : bool)
    (input : list Code) :
  match tokenize K eol type markerType stringType disallowEol input with
  | (Some (Await _), rest, ctx) =>
      rest = [] /\ input = consumed (events ctx)
  | (Some Succeeded, rest, ctx) => input = consumed (events ctx) ++ rest
  | (Some (Failed c), rest, ctx) =>
      input = consumed (events ctx) ++ c :: rest
  | (Some (Thrown _), rest, ctx) =>
      exists c, input = consumed (events ctx) ++ c :: rest
  | (None, _, _) => False
  end.
Proof.
  exact (run_consumes K eol type markerType stringType disallowEol
           input Start init).
Qed.

(** A run from [start] that still waits after some units began with an
    opening bracket, whose marker span opens the stream of calls. *)
Lemma run_opened (K : Constants) (eol : Code -> bool)
    (type markerType stringType : string) (disallowEol : bool)
    (c0 : Code) (read : list Code) (s1 : State) (ctx1 : Ctx) :
  run K eol type markerType stringType disallowEol Start (c0 :: read) init
  = (Some (Await s1), [], ctx1) ->
  c0 = openingSquareBracket K
  /\ s1 <> Start /\ s1 <> AtClosingBrace
  /\ exists evs, events ctx1 = opening_marker K type markerType ++ evs.
Proof.
  intros Hrun.
  pose proof (run_await_inside K eol type markerType stringType disallowEol
                Start s1 (c0 :: read) [] init ctx1 ltac:(discriminate) Hrun)
    as Hin.
  cbn [run] in Hrun. rewrite feed_start in Hrun.
  destruct (code_eqb_spec c0 (openingSquareBracket K)) as [->|];
    [|discriminate].
  split; [reflexivity|].
  split; [now destruct s1|]. split; [now destruct s1|].
  destruct (run_extends K eol type markerType stringType disallowEol read
              AfterStart
              (after init (size init) (balance init)
                 [Enter type; Enter markerType;
                  Consume (openingSquareBracket K); Exit markerType]))
    as [evs Hevs].
  rewrite Hrun in Hevs. exists evs. exact Hevs.
Qed.

(** X2.  The tokenizer returns [ok] only on a closing bracket that follows
    an opening one: the input read is an opening bracket, some content and
    a closing bracket, all of it consumed, and the stream of calls begins
    with the label span and the marker span of the opening bracket and
    ends with the marker span of the closing bracket and the end of the
    label span. *)
Theorem success_is_bracketed (K : Constants) (eol : Code -> bool)
    (type markerType stringType : string) (disallowEol : bool)
    (input rest : list Code) (ctx : Ctx) :
  tokenize K eol type markerType stringType disallowEol input
  = (Some Succeeded, rest, ctx) ->
  exists (content : list Code) (mid : list Event),
    input
    = openingSquareBracket K :: content ++ closingSquareBracket K :: rest
    /\ consumed (events ctx)
       = openingSquareBracket K :: content ++ [closingSquareBracket K]
    /\ events ctx
       = opening_marker K type markerType ++ mid
         ++ closing_marker K type markerType.
Proof.
  intros Hrun.
  pose proof (run_consumes K eol type markerType stringType disallowEol
                input Start init) as Hacc.
  unfold tokenize, createLabel in Hrun; cbn [fst snd] in Hrun.
  rewrite Hrun in Hacc. cbn [init events consumed app] in Hacc.
  destruct (run_last K eol type markerType stringType disallowEol
              Start input rest init ctx (Some Succeeded) Hrun
              ltac:(discriminate))
    as (read & c & s1 & ctx1 & Hinput & Hread & Hfeed).
  destruct read as [|c0 read].
  - cbn [run] in Hread. injection Hread as <- <-.
    rewrite feed_start in Hfeed. now destruct (code_eqb _ _).
  - destruct (run_opened K eol type markerType stringType disallowEol
                c0 read s1 ctx1 Hread) as (-> & _ & Hs1 & evs & Hevs).
    destruct (feed_succeeds K eol type markerType stringType disallowEol
                s1 c ctx1 ctx Hs1 Hfeed) as (-> & pre & Hpre).
    exists read, (evs ++ pre). split; [exact Hinput|]. split.
    + apply (app_inv_tail rest). rewrite <- Hacc, Hinput.
      cbn [app]. now rewrite <- app_assoc.
    + rewrite Hpre, Hevs. now rewrite <- !app_assoc.
Qed.

Lemma success_is_bracketed_witness :
  exists (content : list Code) (mid : list Event),
    units "[a\]b]cd" = Some 91 :: content ++ Some 93 :: units "cd"
    /\ consumed
         (events (snd (tokenize_codes false (units "[a\]b]cd"))))
       = Some 91 :: content ++ [Some 93]
    /\ events (snd (tokenize_codes false (units "[a\]b]cd")))
       = opening_marker micromark "label" "marker" ++ mid
         ++ closing_marker micromark "label" "marker".
Proof.
  apply (success_is_bracketed micromark markdownLineEnding
           "label" "marker" "string" false (units "[a\]b]cd") (units "cd")
           (snd (tokenize_codes false (units "[a\]b]cd")))).
  vm_compute. reflexivity.
Defined.

(** X3.  The tokenizer throws exactly when the very first unit is not an
    opening bracket: it then has made no call on [effects], and the units
    after the first are left unread.  It never throws later. *)
Theorem throws_exactly_on_a_wrong_first_unit (K : Constants)
    (eol : Code -> bool) (type markerType stringType : string)
    (disallowEol : bool) (input rest : list Code) (msg : string)
    (ctx : Ctx) :
  tokenize K eol type markerType stringType disallowEol input
  = (Some (Thrown msg), rest, ctx)
  <-> exists c,
        input = c :: rest /\ c <> openingSquareBracket K
        /\ msg = "expected `[`" /\ ctx = init.
Proof.
  unfold tokenize, createLabel; cbn [fst snd]. split.
  - intros Hrun.
    destruct (run_last K eol type markerType stringType disallowEol
                Start input rest init ctx (Some (Thrown msg)) Hrun
                ltac:(discriminate))
      as (read & c & s1 & ctx1 & Hinput & Hread & Hfeed).
    destruct read as [|c0 read].
    + cbn [run] in Hread. injection Hread as <- <-.
      rewrite feed_start in Hfeed. exists c.
      destruct (code_eqb_spec c (openingSquareBracket K));
        [discriminate|]. injection Hfeed as <- <-. now repeat split.
    + destruct (run_opened K eol type markerType stringType disallowEol
                  c0 read s1 ctx1 Hread) as (_ & Hs1 & _).
      now contradiction (feed_inside_never_throws K eol type markerType
                           stringType disallowEol s1 c ctx1 msg ctx Hs1).
  - intros (c & -> & Hc & -> & ->). cbn [run]. rewrite feed_start.
    now rewrite (code_eqb_neq _ _ Hc).
Qed.

Lemma throws_exactly_on_a_wrong_first_unit_witness :
  tokenize micromark markdownLineEnding "label" "marker" "string" false
    (units "a[b]")
  = (Some (Thrown "expected `[`"), units "[b]", init).
Proof.
  apply (proj2 (throws_exactly_on_a_wrong_first_unit micromark
                  markdownLineEnding "label" "marker" "string" false
                  (units "a[b]") (units "[b]") "expected `[`" init)).
  exists (Some 97). repeat split. discriminate.
Defined.

(** ** Why the tokenizer fails *)

(** Only [labelEscape], when it returns, moves [size]. *)
Lemma feed_keeps_size (K : Constants) (eol : Code -> bool)
    (type markerType stringType : string) (disallowEol : bool)
    (s : State) (c : Code) (ctx : Ctx) (r : Result) (ctx' : Ctx) :
  feed K eol type markerType stringType disallowEol s c ctx = (Some r, ctx') ->
  match r with
  | Await _ => True
  | _ => size ctx' = size ctx
  end.
Proof.
  apply (call_chain K eol type markerType stringType disallowEol c
           (fun _ ctx1 => size ctx1 = size ctx)
           (fun r ctx1 =>
              match r with
              | Await _ => True
              | _ => size ctx1 = size ctx
              end));
    [|reflexivity].
  clear s. by_body; intros HP; exact I || exact HP.
Qed.

(** [nok] is called for one of four reasons. *)
Lemma feed_fails_for_a_reason (K : Constants) (eol : Code -> bool)
    (type markerType stringType : string) (disallowEol : bool)
    (s : State) (c c' : Code) (ctx ctx' : Ctx) :
  feed K eol type markerType stringType disallowEol s c ctx
  = (Some (Failed c'), ctx') ->
  c = EOF K
  \/ 999 < size ctx
  \/ (eol c = true /\ disallowEol = true)
  \/ (c = openingSquareBracket K /\ 3 < balance ctx').
Proof.
  intros Hfeed.
  apply (call_chain K eol type markerType stringType disallowEol c
           (fun _ ctx1 => size ctx1 = size ctx)
           (fun r ctx1 =>
              match r with
              | Failed _ =>
                  c = EOF K
                  \/ 999 < size ctx
                  \/ (eol c = true /\ disallowEol = true)
                  \/ (c = openingSquareBracket K /\ 3 < balance ctx1)
              | _ => True
              end)) in Hfeed; [exact Hfeed| |reflexivity].
  clear. revert disallowEol.
  intros disallowEol. by_body; intros HP; try exact I;
    cbn [size] in HP; subst; auto 6.
Qed.

(** The counters of a waiting tokenizer, from the invariant. *)
Lemma run_waiting (K : Constants) (eol : Code -> bool)
    (type markerType stringType : string) (disallowEol : bool)
    (input rest : list Code) (s : State) (ctx : Ctx) :
  run K eol type markerType stringType disallowEol Start input init
  = (Some (Await s), rest, ctx) ->
  waiting type stringType s ctx.
Proof.
  intros Hrun.
  pose proof (run_settles K eol type markerType stringType disallowEol
                Start input init (waiting_init type stringType)) as H.
  now rewrite Hrun in H.
Qed.

(** What the initial context has and every unit fed to a waiting tokenizer
    keeps, the context has after any input. *)
Lemma run_keeps (K : Constants) (eol : Code -> bool)
    (type markerType stringType : string) (disallowEol : bool)
    (R : Ctx -> Prop) :
  (forall s c ctx r ctx',
      waiting type stringType s ctx -> R ctx ->
      feed K eol type markerType stringType disallowEol s c ctx
      = (Some r, ctx') ->
      R ctx') ->
  forall input s ctx,
    waiting type stringType s ctx -> R ctx ->
    R (snd (run K eol type markerType stringType disallowEol s input ctx)).
Proof.
  intros Hstep. induction input as [|c input IH]; intros s ctx Hw HR; simpl.
  - exact HR.
  - pose proof (feed_settles K eol type markerType stringType disallowEol
                  s c ctx Hw) as Hset.
    destruct (feed _ _ _ _ _ _ _ _ _) as [[r|] ctx1] eqn:E;
      [|now contradiction Hset].
    pose proof (Hstep s c ctx r ctx1 Hw HR E) as HR1.
    destruct r as [s1| |c1|msg]; try exact HR1.
    apply IH; assumption.
Qed.

Lemma size_cap_le (s : State) : size_cap s <= 1000.
Proof. destruct s; simpl; lia. Qed.

(** X4.  [size] stays between 0 and 1000 throughout: the tokenizer never
    consumes more than a thousand escaped units, however long the input. *)
Theorem size_within_ceiling (K : Constants) (eol : Code -> bool)
    (type markerType stringType : string) (disallowEol : bool)
    (input : list Code) :
  0 <= size (snd (tokenize K eol type markerType stringType disallowEol
                    input)) <= 1000.
Proof.
  unfold tokenize, createLabel; cbn [fst snd].
  destruct (run K eol type markerType stringType disallowEol Start input init)
    as [[r rest] ctx] eqn:Hrun. cbn [snd].
  assert (Hwait : forall s, r = Some (Await s) -> 0 <= size ctx <= 1000).
  { intros s ->.
    destruct (run_waiting _ _ _ _ _ _ _ _ _ _ Hrun) as (_ & Hsz & _).
    pose proof (size_cap_le s). lia. }
  assert (Hleft : (forall s, r <> Some (Await s)) -> 0 <= size ctx <= 1000).
  { intros Hr.
    destruct (run_last K eol type markerType stringType disallowEol
                Start input rest init ctx r Hrun Hr)
      as (read & c & s1 & ctx1 & _ & Hread & Hfeed).
    destruct (run_waiting _ _ _ _ _ _ _ _ _ _ Hread) as (_ & Hsz & _).
    pose proof (size_cap_le s1).
    destruct r as [r|].
    - pose proof (feed_keeps_size _ _ _ _ _ _ _ _ _ _ _ Hfeed) as Hk.
      destruct r; try lia. now contradiction (Hr s).
    - now contradiction (feed_total K eol type markerType stringType
                           disallowEol s1 c ctx1); rewrite Hfeed. }
  destruct r as [[s| |c|msg]|]; solve [now apply (Hwait s)
                                     | apply Hleft; discriminate].
Qed.

(** X5.  The tokenizer calls [nok] for one of four reasons only: the unit
    is the end of input; a thousand escaped units have been consumed
    already; the unit is a line ending and line endings are disallowed; or
    the unit is an opening bracket that would open a fourth nested
    group. *)
Theorem fails_for_one_of_four_reasons (K : Constants) (eol : Code -> bool)
    (type markerType stringType : string) (disallowEol : bool)
    (input rest : list Code) (c : Code) (ctx : Ctx) :
  tokenize K eol type markerType stringType disallowEol input
  = (Some (Failed c), rest, ctx) ->
  c = EOF K
  \/ size ctx = 1000
  \/ (eol c = true /\ disallowEol = true)
  \/ (c = openingSquareBracket K /\ balance ctx = 4).
Proof.
  unfold tokenize, createLabel; cbn [fst snd]. intros Hrun.
  pose proof (run_settles K eol type markerType stringType disallowEol
                Start input init (waiting_init type stringType)) as Hset.
  rewrite Hrun in Hset; cbn [fst snd settled] in Hset.
  destruct (run_last K eol type markerType stringType disallowEol
              Start input rest init ctx (Some (Failed c)) Hrun
              ltac:(discriminate))
    as (read & c1 & s1 & ctx1 & _ & Hread & Hfeed).
  destruct (run_waiting _ _ _ _ _ _ _ _ _ _ Hread) as (_ & Hsz & _).
  pose proof (size_cap_le s1).
  pose proof (feed_keeps_size _ _ _ _ _ _ _ _ _ _ _ Hfeed) as Hk.
  cbn in Hk.
  pose proof (feed_consumes _ _ _ _ _ _ _ _ _ _ _ Hfeed) as [<- _].
  destruct (feed_fails_for_a_reason _ _ _ _ _ _ _ _ _ _ _ Hfeed)
    as [H1 | [H2 | [H3 | [H4 H5]]]]; auto.
  - right; left. lia.
  - right; right; right. split; [assumption|]. lia.
Qed.

Lemma fails_for_one_of_four_reasons_witness :
  Some (-4) = EOF micromark
  \/ size (snd (tokenize_codes true (units "[a" ++ LF :: units "b]"))) = 1000
  \/ (markdownLineEnding (Some (-4)) = true /\ true = true)
  \/ (Some (-4) = openingSquareBracket micromark
      /\ balance (snd (tokenize_codes true (units "[a" ++ LF :: units "b]")))
         = 4).
Proof.
  apply (fails_for_one_of_four_reasons micromark markdownLineEnding
           "label" "marker" "string" true (units "[a" ++ LF :: units "b]")
           (units "b]")).
  vm_compute. reflexivity.
Defined.

(** ** What [size] counts *)

Lemma escaped_units_snoc (K : Constants) (cs : list Code) (c : Code) :
  escaped_units K (cs ++ [c]) = esc_step K (escaped_units K cs) c.
Proof. unfold escaped_units. now rewrite fold_left_app. Qed.

(** Decides the tests on units left in the goal. *)
Ltac split_codes :=
  repeat match goal with
         | |- context [code_eqb ?a ?b] =>
             destruct (code_eqb_spec a b); cbn [andb orb negb fst snd];
             prune
         end.

(** One unit keeps [size] equal to the number of escaped units consumed,
    and the tokenizer in [labelEscape] exactly after a backslash that
    escapes nothing yet. *)
Lemma feed_counts_escapes (K : Constants) (eol : Code -> bool)
    (type markerType stringType : string) (disallowEol : bool)
    (s : State) (c : Code) (ctx : Ctx) (r : Result) (ctx' : Ctx) :
  sane_codes K eol = true ->
  escaped_units K (consumed (events ctx)) = (size ctx, is_escape s) ->
  feed K eol type markerType stringType disallowEol s c ctx = (Some r, ctx') ->
  match r with
  | Await s' =>
      escaped_units K (consumed (events ctx')) = (size ctx', is_escape s')
  | _ => fst (escaped_units K (consumed (events ctx'))) = size ctx'
  end.
Proof.
  intros Hsane H0.
  apply (call_chain K eol type markerType stringType disallowEol c
           (fun s1 ctx1 =>
              consumed (events ctx1) = consumed (events ctx)
              /\ size ctx1 = size ctx
              /\ (if is_escape s
                  then s1 = LabelEscape \/ escapable K c = false
                  else s1 <> LabelEscape))
           (fun r ctx1 =>
              match r with
              | Await s' =>
                  escaped_units K (consumed (events ctx1))
                  = (size ctx1, is_escape s')
              | _ => fst (escaped_units K (consumed (events ctx1)))
                     = size ctx1
              end)).
  - sane Hsane. revert H0. generalize (is_escape s) as p.
    generalize (size ctx) as n. generalize (consumed (events ctx)) as cs.
    clear s ctx r ctx' Hsane. intros cs n p H0.
    by_body; intros (Hc & Hsz & Hp); cbn [size events] in Hsz, Hc;
      rewrite ?Hsz; repeat split; auto;
      gather Hc; rewrite ?escaped_units_snoc, ?H0; unfold esc_step, escapable;
      cbn [fst snd is_escape];
      try reflexivity;
      destruct p; cbn [andb];
      try (destruct Hp as [Hp|Hp]; [discriminate Hp|]);
      try (unfold escapable in Hp); split_codes; try reflexivity;
      try congruence.
  - repeat split. destruct (is_escape s) eqn:Hs; [left|]; now destruct s.
Qed.

(** X6.  [size] is the number of escaped units read so far, an escaped unit
    being a bracket or a backslash that follows a backslash which is not
    escaped itself; and the tokenizer waits in [labelEscape] exactly when
    the input so far ends in a backslash that is not escaped. *)
Theorem size_is_the_number_of_escapes (K : Constants) (eol : Code -> bool)
    (type markerType stringType : string) (disallowEol : bool)
    (input : list Code) :
  sane_codes K eol = true ->
  match tokenize K eol type markerType stringType disallowEol input with
  | (Some (Await s), _, ctx) =>
      escaped_units K input = (size ctx, is_escape s)
  | (Some _, _, ctx) =>
      fst (escaped_units K (consumed (events ctx))) = size ctx
  | (None, _, _) => False
  end.
Proof.
  intros Hsane. unfold tokenize, createLabel; cbn [fst snd].
  pose proof (run_consumes K eol type markerType stringType disallowEol
                input Start init) as Hacc.
  destruct (run K eol type markerType stringType disallowEol Start input init)
    as [[r rest] ctx] eqn:Hrun.
  assert (Hinv : forall read s1 ctx1,
    run K eol type markerType stringType disallowEol Start read init
    = (Some (Await s1), [], ctx1) ->
    escaped_units K (consumed (events ctx1)) = (size ctx1, is_escape s1)).
  { intros read s1 ctx1 Hread.
    apply (run_invariant K eol type markerType stringType disallowEol
             (fun s2 ctx2 =>
                escaped_units K (consumed (events ctx2))
                = (size ctx2, is_escape s2)))
      with (input := read) (s := Start) (ctx := init) (rest := []);
      [|reflexivity|exact Hread].
    intros s2 c2 ctx2 s3 ctx3 H2 Hfeed.
    exact (feed_counts_escapes K eol type markerType stringType disallowEol
             s2 c2 ctx2 (Await s3) ctx3 Hsane H2 Hfeed). }
  destruct r as [r|]; [|exact Hacc].
  assert (Hleft : (forall s, Some r <> Some (Await s)) ->
                  fst (escaped_units K (consumed (events ctx))) = size ctx).
  { intros Hr.
    destruct (run_last K eol type markerType stringType disallowEol
                Start input rest init ctx (Some r) Hrun Hr)
      as (read & c & s1 & ctx1 & _ & Hread & Hfeed).
    pose proof (feed_counts_escapes K eol type markerType stringType
                  disallowEol s1 c ctx1 r ctx Hsane
                  (Hinv read s1 ctx1 Hread) Hfeed) as H.
    destruct r; try exact H. now contradiction (Hr s). }
  destruct r as [s| |c|msg]; try (apply Hleft; discriminate).
  destruct Hacc as [-> Hcons]. cbn [init events consumed app] in Hcons.
  rewrite Hcons. exact (Hinv input s ctx Hrun).
Qed.

Lemma size_is_the_number_of_escapes_witness :
  escaped_units micromark (units "[a\[b\]c" ++ [Some 92]) = (2, true)
  /\ size (snd (tokenize_codes false (units "[a\[b\]c" ++ [Some 92]))) = 2.
Proof.
  pose proof (size_is_the_number_of_escapes micromark markdownLineEnding
                "label" "marker" "string" false
                (units "[a\[b\]c" ++ [Some 92]) eq_refl) as H.
  vm_compute in H. split; [exact H|reflexivity].
Defined.

(** ** Where units are consumed *)

Lemma place_fold (evs : list Event) :
  fold_left place_step evs (Some [], []) = (open_spans evs, places evs).
Proof.
  unfold places, open_spans.
  induction evs as [|e evs IH] using rev_ind; [reflexivity|].
  rewrite !fold_left_app. cbn [fold_left]. rewrite IH. reflexivity.
Qed.

Lemma places_snoc (evs : list Event) (e : Event) :
  places (evs ++ [e])
  = match e with
    | Consume c => places evs ++ [(c, innermost (open_spans evs))]
    | _ => places evs
    end.
Proof.
  unfold places at 1. rewrite fold_left_app, place_fold.
  now destruct e.
Qed.

(** Inside the brackets, a unit that is consumed is consumed at its place:
    the closing bracket on which [ok] is returned in a marker span, any
    other unit in a line-ending span or in a text chunk, as it is a line
    ending or not. *)
Lemma feed_places (K : Constants) (eol : Code -> bool)
    (type markerType stringType : string) (disallowEol : bool)
    (s : State) (c : Code) (ctx : Ctx) (r : Result) (ctx' : Ctx) :
  sane_codes K eol = true ->
  inside s = true ->
  open_spans (events ctx) = Some (spans_at type stringType s) ->
  feed K eol type markerType stringType disallowEol s c ctx = (Some r, ctx') ->
  match r with
  | Await _ =>
      places (events ctx') = places (events ctx) ++ [content_place eol c]
  | Succeeded =>
      places (events ctx')
      = places (events ctx) ++ [(closingSquareBracket K, Some markerType)]
  | _ => places (events ctx') = places (events ctx)
  end.
Proof.
  intros Hsane Hs Ho.
  apply (call_chain K eol type markerType stringType disallowEol c
           (fun s1 ctx1 =>
              s1 <> Start
              /\ open_spans (events ctx1) = Some (spans_at type stringType s1)
              /\ places (events ctx1) = places (events ctx)
              /\ (s1 = AtClosingBrace -> c = closingSquareBracket K))
           (fun r ctx1 =>
              match r with
              | Await _ =>
                  places (events ctx1)
                  = places (events ctx) ++ [content_place eol c]
              | Succeeded =>
                  places (events ctx1)
                  = places (events ctx)
                    ++ [(closingSquareBracket K, Some markerType)]
              | _ => places (events ctx1) = places (events ctx)
              end));
    [|repeat split; try assumption; now destruct s].
  sane Hsane. generalize (places (events ctx)) as ps.
  clear s ctx r ctx' Hs Ho Hsane. intros ps.
  by_body; intros (Hns & Ho & Hp & Hc); cbn [events spans_at] in Ho, Hp;
    try congruence;
    repeat match goal with
           | |- _ /\ _ => split
           | |- _ = _ -> _ =>
               let Habs := fresh in intros Habs; try discriminate Habs
           end;
    try assumption; try congruence;
    try (spans Ho; reflexivity);
    repeat (rewrite places_snoc; cbv beta iota);
    rewrite ?open_spans_snoc, ?Ho;
    repeat (progress (cbn [span_step innermost]; rewrite ?String.eqb_refl));
    rewrite ?Hp; try reflexivity;
    try specialize (Hc eq_refl); unfold content_place.
  all: try (subst c; reflexivity).
  all: destruct (eol c) eqn:Heol; try reflexivity; exfalso; congruence.
Qed.

(** The places of the units consumed on a run that starts inside the
    brackets. *)
Lemma run_places (K : Constants) (eol : Code -> bool)
    (type markerType stringType : string) (disallowEol : bool)
    (input : list Code) (s : State) (ctx : Ctx) :
  sane_codes K eol = true ->
  inside s = true ->
  waiting type stringType s ctx ->
  match run K eol type markerType stringType disallowEol s input ctx with
  | (Some Succeeded, _, ctx') =>
      exists content,
        consumed (events ctx')
        = consumed (events ctx) ++ content ++ [closingSquareBracket K]
        /\ places (events ctx')
           = places (events ctx) ++ map (content_place eol) content
             ++ [(closingSquareBracket K, Some markerType)]
  | (Some (Thrown _), _, _) => False
  | (Some _, _, ctx') =>
      exists content,
        consumed (events ctx') = consumed (events ctx) ++ content
        /\ places (events ctx')
           = places (events ctx) ++ map (content_place eol) content
  | (None, _, _) => False
  end.
Proof.
  intros Hsane. revert s ctx.
  induction input as [|c input IH]; intros s ctx Hin Hw; cbn [run].
  - exists []. cbn [map]. now rewrite !app_nil_r.
  - pose proof (feed_settles K eol type markerType stringType disallowEol
                  s c ctx Hw) as Hset.
    destruct (feed _ _ _ _ _ _ _ _ _) as [[r|] ctx1] eqn:E;
      [|exact Hset]. cbn [fst snd] in Hset.
    assert (Hs : s <> AtClosingBrace /\ s <> Start) by now destruct s.
    destruct Hw as (_ & _ & _ & Ho).
    pose proof (feed_places K eol type markerType stringType disallowEol
                  s c ctx r ctx1 Hsane Hin Ho E) as Hp.
    pose proof (feed_consumes K eol type markerType stringType disallowEol
                  s c ctx r ctx1 E) as Hc.
    destruct r as [s1| |c1|msg].
    + assert (Hin1 : inside s1 = true).
      { apply (feed_await_inside K eol type markerType stringType
                 disallowEol s s1 c ctx). now rewrite E. }
      specialize (IH s1 ctx1 Hin1 Hset).
      destruct (run _ _ _ _ _ _ s1 input ctx1) as [[[[s2| |c2|msg]|] rest] ctx2];
        try exact IH;
        destruct IH as (content & Hc2 & Hp2); exists (c :: content);
        rewrite Hc2, Hp2, Hc, Hp; cbn [map app];
        now rewrite <- !app_assoc.
    + destruct (feed_succeeds K eol type markerType stringType disallowEol
                  s c ctx ctx1 (proj1 Hs) E) as [-> _].
      exists []. now split.
    + exists []. cbn [map]. rewrite !app_nil_r. destruct Hc as [_ Hc].
      now split.
    + now contradiction (feed_inside_never_throws K eol type markerType
                           stringType disallowEol s c ctx msg ctx1
                           (proj2 Hs)).
Qed.

(** X7.  Every unit is consumed at its place.  The two brackets of the
    label, which are the first unit consumed and, once [ok] is returned,
    the last, are consumed directly in a marker span; every unit between
    them is consumed directly in a line-ending span if it is a line
    ending, and directly in a text chunk if it is not. *)
Theorem units_consumed_in_place (K : Constants) (eol : Code -> bool)
    (type markerType stringType : string) (disallowEol : bool)
    (input : list Code) :
  sane_codes K eol = true ->
  match tokenize K eol type markerType stringType disallowEol input with
  | (Some Succeeded, _, ctx) =>
      exists content,
        consumed (events ctx)
        = openingSquareBracket K :: content ++ [closingSquareBracket K]
        /\ places (events ctx) = label_places K eol markerType content true
  | (Some (Thrown _), _, ctx) => places (events ctx) = []
  | (Some _, _, ctx) =>
      (consumed (events ctx) = [] /\ places (events ctx) = [])
      \/ exists content,
           consumed (events ctx) = openingSquareBracket K :: content
           /\ places (events ctx)
              = label_places K eol markerType content false
  | (None, _, _) => False
  end.
Proof.
  intros Hsane. unfold tokenize, createLabel; cbn [fst snd].
  destruct input as [|c0 input]; [now left|].
  cbn [run]. rewrite feed_start.
  destruct (code_eqb_spec c0 (openingSquareBracket K)) as [->|Hc0];
    [|reflexivity].
  assert (Hw : waiting type stringType AfterStart
                 (after init (size init) (balance init)
                    [Enter type; Enter markerType;
                     Consume (openingSquareBracket K); Exit markerType])).
  { unfold waiting, after; cbn. rewrite !String.eqb_refl.
    repeat split; (discriminate || lia). }
  pose proof (run_places K eol type markerType stringType disallowEol
                input AfterStart _ Hsane eq_refl Hw) as H.
  destruct (run _ _ _ _ _ _ AfterStart input _)
    as [[[[s2| |c2|msg]|] rest] ctx2]; try contradiction;
    destruct H as (content & Hc & Hp); try right; exists content;
    rewrite Hc, Hp; unfold label_places; cbn [app];
    rewrite ?app_nil_r; now split.
Qed.

Lemma units_consumed_in_place_witness :
  exists content,
    consumed
      (events (snd (tokenize_codes false
                      (units "[a[" ++ LF :: units "\]b]]c"))))
    = Some 91 :: content ++ [Some 93]
    /\ places
         (events (snd (tokenize_codes false
                         (units "[a[" ++ LF :: units "\]b]]c"))))
       = [(Some 91, Some "marker"); (Some 97, Some "chunkText");
          (Some 91, Some "chunkText"); (Some (-4), Some "lineEnding");
          (Some 92, Some "chunkText"); (Some 93, Some "chunkText");
          (Some 98, Some "chunkText"); (Some 93, Some "chunkText");
          (Some 93, Some "marker")].
Proof.
  pose proof (units_consumed_in_place micromark markdownLineEnding
                "label" "marker" "string" false
                (units "[a[" ++ LF :: units "\]b]]c") eq_refl) as H.
  vm_compute in H. destruct H as (content & Hc & Hp).
  exists content. split; [|reflexivity]. vm_compute. exact Hc.
Defined.

(** ** Line endings *)

(** With line endings disallowed, one unit keeps the consumed units free
    of line endings. *)
Lemma feed_consumes_no_eol (K : Constants) (eol : Code -> bool)
    (type markerType stringType : string)
    (s : State) (c : Code) (ctx : Ctx) (r : Result) (ctx' : Ctx) :
  sane_codes K eol = true ->
  s <> AtClosingBrace ->
  Forall (fun u => eol u = false) (consumed (events ctx)) ->
  feed K eol type markerType stringType true s c ctx = (Some r, ctx') ->
  Forall (fun u => eol u = false) (consumed (events ctx')).
Proof.
  intros Hsane Hs Hall.
  apply (call_chain K eol type markerType stringType true c
           (fun s1 ctx1 =>
              consumed (events ctx1) = consumed (events ctx)
              /\ (s1 = AtClosingBrace -> c = closingSquareBracket K))
           (fun _ ctx1 =>
              Forall (fun u => eol u = false) (consumed (events ctx1))));
    [|now split].
  sane Hsane. revert Hall. generalize (consumed (events ctx)) as cs.
  clear s ctx r ctx' Hs Hsane. intros cs Hall.
  by_body; intros (Hc & Hacb); cbn [events] in Hc;
    repeat match goal with
           | |- _ /\ _ => split
           | |- _ = _ -> _ =>
               let Habs := fresh in intros Habs; try discriminate Habs
           end;
    try congruence; gather Hc; try assumption;
    try specialize (Hacb eq_refl).
  all: apply Forall_app; split; [assumption|].
  all: constructor; [congruence|constructor].
Qed.

(** X8.  When line endings are disallowed the tokenizer consumes no line
    ending: whatever the input, the units consumed, which are the units
    read up to a rejected one, hold none. *)
Theorem no_line_ending_consumed_when_disallowed (K : Constants)
    (eol : Code -> bool) (type markerType stringType : string)
    (input : list Code) :
  sane_codes K eol = true ->
  Forall (fun u => eol u = false)
    (consumed
       (events
          (snd (tokenize K eol type markerType stringType true input)))).
Proof.
  intros Hsane. unfold tokenize, createLabel; cbn [fst snd].
  apply (run_keeps K eol type markerType stringType true
           (fun ctx => Forall (fun u => eol u = false)
                         (consumed (events ctx))));
    [|apply waiting_init|constructor].
  intros s c ctx r ctx' (Hs & _) Hall Hfeed.
  exact (feed_consumes_no_eol K eol type markerType stringType
           s c ctx r ctx' Hsane Hs Hall Hfeed).
Qed.

Lemma no_line_ending_consumed_when_disallowed_witness :
  Forall (fun u => markdownLineEnding u = false) [Some 91; Some 97].
Proof.
  apply (no_line_ending_consumed_when_disallowed micromark
           markdownLineEnding "label" "marker" "string"
           (units "[a" ++ LF :: units "b]")).
  reflexivity.
Defined.

(** A unit that is no line ending is handled in the same way whether line
    endings are allowed or not. *)
Lemma body_flag_idle (K : Constants) (eol : Code -> bool)
    (type markerType stringType : string) (s : State) (c : Code)
    (ctx : Ctx) :
  eol c = false ->
  body K eol type markerType stringType true s c ctx
  = body K eol type markerType stringType false s c ctx.
Proof.
  intros Hc. destruct s; try reflexivity.
  cbn [body]. unfold atBreak. now rewrite Hc.
Qed.

Lemma call_flag_idle (K : Constants) (eol : Code -> bool)
    (type markerType stringType : string) (n : nat) (s : State) (c : Code)
    (ctx : Ctx) :
  eol c = false ->
  call K eol type markerType stringType true n s c ctx
  = call K eol type markerType stringType false n s c ctx.
Proof.
  intros Hc. revert s ctx. induction n as [|n IH]; intros s ctx;
    [reflexivity|].
  cbn [call]. unfold bind. rewrite (body_flag_idle _ _ _ _ _ _ _ _ Hc).
  destruct (body _ _ _ _ _ _ _ _ _) as [[s'|s'| | |msg] ctx1];
    try reflexivity. apply IH.
Qed.

(** X9.  On an input without line endings [disallowEol] changes nothing:
    the result, the units left unread, the counters and the calls made on
    [effects] are the same under both policies. *)
Theorem flag_idle_without_line_endings (K : Constants) (eol : Code -> bool)
    (type markerType stringType : string) (input : list Code) :
  forallb (fun c => negb (eol c)) input = true ->
  tokenize K eol type markerType stringType true input
  = tokenize K eol type markerType stringType false input.
Proof.
  unfold tokenize, createLabel; cbn [fst snd].
  generalize Start as s, init as ctx.
  induction input as [|c input IH]; intros s ctx Hall; [reflexivity|].
  cbn [forallb] in Hall. apply andb_true_iff in Hall as [Hc Hall].
  apply negb_true_iff in Hc. cbn [run]. unfold feed.
  rewrite (call_flag_idle _ _ _ _ _ _ _ _ _ Hc).
  destruct (call _ _ _ _ _ _ _ _ _ _) as [[[s1| |c1|msg]|] ctx1];
    try reflexivity. now apply IH.
Qed.

Lemma flag_idle_without_line_endings_witness :
  tokenize micromark markdownLineEnding "label" "marker" "string" true
    (units "[a[b]c]d")
  = tokenize micromark markdownLineEnding "label" "marker" "string" false
      (units "[a[b]c]d").
Proof.
  apply (flag_idle_without_line_endings micromark markdownLineEnding
           "label" "marker" "string" (units "[a[b]c]d")).
  reflexivity.
Defined.

(** ** Balanced brackets *)

(** A text of ordinary units and brackets whose nesting stays within three
    levels is consumed by [label] unit by unit, [balance] following the
    depth. *)
Lemma run_plain (K : Constants) (eol : Code -> bool)
    (type markerType stringType : string) (disallowEol : bool)
    (content : list Code) (ctx : Ctx) (b' : Z) :
  sane_codes K eol = true ->
  forallb (plain K eol) content = true ->
  size ctx <= 999 ->
  depth_after K (balance ctx) content = Some b' ->
  run K eol type markerType stringType disallowEol Label content ctx
  = (Some (Await Label), [],
     after ctx (size ctx) b' (map Consume content)).
Proof.
  intros Hsane. sane Hsane. revert ctx.
  induction content as [|c content IH]; intros ctx Hall Hsz Hd.
  - cbn in Hd |- *. injection Hd as <-. unfold after.
    rewrite app_nil_r. now destruct ctx.
  - cbn [forallb] in Hall. apply andb_true_iff in Hall as [Hc Hall].
    cbn [depth_after] in Hd. cbn [run].
    destruct (code_eqb_spec c (openingSquareBracket K)) as [->|Hno].
    + rewrite (feed_opening K eol type markerType stringType Hsane
                 disallowEol Label ctx) by auto.
      destruct (3 <? balance ctx + 1); [discriminate|].
      rewrite IH by assumption. cbn [after size balance events map app].
      unfold after; cbn [events]. now rewrite <- app_assoc.
    + destruct (code_eqb_spec c (closingSquareBracket K)) as [->|Hnc].
      * rewrite (feed_label_closing K eol type markerType stringType Hsane
                   disallowEol ctx) by assumption.
        destruct (balance ctx =? 0); [discriminate|].
        rewrite IH by assumption. cbn [after size balance events map app].
        unfold after; cbn [events]. now rewrite <- app_assoc.
      * assert (Hord : ordinary K eol c = true).
        { unfold plain in Hc.
          rewrite (code_eqb_neq _ _ Hno), (code_eqb_neq _ _ Hnc) in Hc.
          now rewrite !orb_false_r in Hc. }
        rewrite (feed_ordinary K eol type markerType stringType disallowEol
                   Label c ctx eq_refl Hord Hsz).
        rewrite IH by assumption. cbn [after size balance events map app].
        unfold after; cbn [events]. now rewrite <- app_assoc.
Qed.

(** The first unit of such a text, met by [afterStart]: unless it is a
    closing bracket, it opens the content span and a text chunk. *)
Lemma feed_afterStart_plain (K : Constants) (eol : Code -> bool)
    (type markerType stringType : string) (disallowEol : bool)
    (c : Code) (content : list Code) (d : option Z) :
  sane_codes K eol = true ->
  plain K eol c = true ->
  c <> closingSquareBracket K ->
  depth_after K 0 (c :: content) = d ->
  exists b1,
    feed K eol type markerType stringType disallowEol AfterStart c
      (after init (size init) (balance init)
         [Enter type; Enter markerType; Consume (openingSquareBracket K);
          Exit markerType])
    = (Some (Await Label),
       {| size := 0; balance := b1;
          events := opening_marker K type markerType
                    ++ [Enter stringType; Enter "chunkText"; Consume c] |})
    /\ 0 <= b1 /\ depth_after K b1 content = d.
Proof.
  intros Hsane Hc Hnc Hd. sane Hsane. cbn [depth_after] in Hd.
  destruct (code_eqb_spec c (openingSquareBracket K)) as [->|Hno].
  - exists 1. split; [|split; [lia|exact Hd]].
    rewrite (feed_opening K eol type markerType stringType Hsane
               disallowEol AfterStart) by (cbn; auto; lia).
    reflexivity.
  - rewrite (code_eqb_neq _ _ Hnc) in Hd.
    exists 0. split; [|split; [lia|exact Hd]].
    assert (Hord : ordinary K eol c = true).
    { unfold plain in Hc.
      rewrite (code_eqb_neq _ _ Hno), (code_eqb_neq _ _ Hnc) in Hc.
      now rewrite !orb_false_r in Hc. }
    rewrite (feed_ordinary K eol type markerType stringType disallowEol
               AfterStart c _ eq_refl Hord) by (cbn; lia).
    reflexivity.
Qed.

(** A label with such a content. *)
Lemma tokenize_balanced (K : Constants) (eol : Code -> bool)
    (type markerType stringType : string) (disallowEol : bool)
    (c : Code) (content rest : list Code) :
  sane_codes K eol = true ->
  forallb (plain K eol) (c :: content) = true ->
  depth_after K 0 (c :: content) = Some 0 ->
  tokenize K eol type markerType stringType disallowEol
    (openingSquareBracket K :: (c :: content)
     ++ closingSquareBracket K :: rest)
  = (Some Succeeded, rest,
     {| size := 0; balance := -1;
        events :=
          opening_marker K type markerType
          ++ [Enter stringType; Enter "chunkText"]
          ++ map Consume (c :: content)
          ++ [Exit "chunkText"; Exit stringType]
          ++ closing_marker K type markerType |}).
Proof.
  intros Hsane Hall Hd.
  cbn [forallb] in Hall. apply andb_true_iff in Hall as [Hc Hall].
  assert (Hnc : c <> closingSquareBracket K).
  { intros ->. cbn [depth_after] in Hd. sane Hsane.
    rewrite (code_eqb_neq (closingSquareBracket K)
               (openingSquareBracket K)) in Hd by congruence.
    now rewrite code_eqb_refl in Hd. }
  unfold tokenize, createLabel; cbn [fst snd].
  cbn [app run]. rewrite feed_start_opening.
  destruct (feed_afterStart_plain K eol type markerType stringType
              disallowEol c content (Some 0) Hsane Hc Hnc Hd)
    as (b1 & -> & _ & Hd1).
  rewrite run_app.
  rewrite (run_plain K eol type markerType stringType disallowEol content
             _ 0 Hsane Hall) by (cbn; (lia || exact Hd1)).
  cbn [run].
  rewrite (feed_label_closing K eol type markerType stringType Hsane
             disallowEol) by (cbn; lia).
  cbn [after size balance events Z.eqb]. unfold after; cbn [events].
  unfold opening_marker, closing_marker. cbn [map app].
  rewrite <- ?app_assoc. reflexivity.
Qed.

(** X10.  Balanced brackets are content: a label whose content is made of
    ordinary units and of brackets that are properly nested, at most three
    levels deep, is accepted up to the bracket that closes it.  All its
    content lies in one text chunk, and the units after the closing bracket
    are left unread. *)
Theorem balanced_content_accepted (K : Constants) (eol : Code -> bool)
    (type markerType stringType : string) (disallowEol : bool)
    (c : Code) (content rest : list Code) :
  sane_codes K eol = true ->
  forallb (plain K eol) (c :: content) = true ->
  depth_after K 0 (c :: content) = Some 0 ->
  tokenize K eol type markerType stringType disallowEol
    (openingSquareBracket K :: (c :: content)
     ++ closingSquareBracket K :: rest)
  = (Some Succeeded, rest,
     {| size := 0; balance := -1;
        events :=
          opening_marker K type markerType
          ++ [Enter stringType; Enter "chunkText"]
          ++ map Consume (c :: content)
          ++ [Exit "chunkText"; Exit stringType]
          ++ closing_marker K type markerType |}).
Proof. exact (tokenize_balanced K eol type markerType stringType
                disallowEol c content rest). Qed.

Lemma balanced_content_accepted_witness :
  tokenize micromark markdownLineEnding "label" "marker" "string" false
    (openingSquareBracket micromark :: units "a[b[c]]d"
     ++ closingSquareBracket micromark :: units "ef")
  = (Some Succeeded, units "ef",
     {| size := 0; balance := -1;
        events :=
          opening_marker micromark "label" "marker"
          ++ [Enter "string"; Enter "chunkText"]
          ++ map Consume (units "a[b[c]]d")
          ++ [Exit "chunkText"; Exit "string"]
          ++ closing_marker micromark "label" "marker" |}).
Proof.
  apply (balanced_content_accepted micromark markdownLineEnding
           "label" "marker" "string" false (Some 97) (units "[b[c]]d")
           (units "ef")).
  - reflexivity.
  - reflexivity.
  - reflexivity.
Defined.

(** ** The chain of calls on one unit *)

(** X11.  A unit passes through at most four state functions before the
    tokenizer comes back: [label] and [atBreak] never hand a unit back and
    forth, so that allowing a longer chain of calls changes nothing and a
    result is always reached. *)
Theorem four_calls_suffice (K : Constants) (eol : Code -> bool)
    (type markerType stringType : string) (disallowEol : bool)
    (n : nat) (s : State) (c : Code) (ctx : Ctx) :
  (4 <= n)%nat ->
  call K eol type markerType stringType disallowEol n s c ctx
  = feed K eol type markerType stringType disallowEol s c ctx
  /\ fst (feed K eol type markerType stringType disallowEol s c ctx) <> None.
Proof.
  intros Hn. split; [|apply feed_total].
  induction Hn as [|n Hn IH]; [reflexivity|].
  rewrite call_more; [exact IH|]. rewrite IH. apply feed_total.
Qed.

Lemma four_calls_suffice_witness :
  call micromark markdownLineEnding "label" "marker" "string" false 7
    LabelEscape LF {| size := 0; balance := 1; events := [] |}
  = (Some (Await AtBreak),
     {| size := 0; balance := 1;
        events := [Exit "chunkText"; Enter "lineEnding"; Consume LF;
                   Exit "lineEnding"] |}).
Proof.
  apply (four_calls_suffice micromark markdownLineEnding
           "label" "marker" "string" false 7 LabelEscape LF
           {| size := 0; balance := 1; events := [] |}).
  lia.
Defined.




(** ** The span tags *)

(** A state function decides on the unit and the counters alone: under
    other span tags, and after other calls on [effects], it ends in the
    same way, moves the counters in the same way and consumes the same. *)
Lemma body_ignores_tags (K : Constants) (eol : Code -> bool)
    (disallowEol : bool) (t m st t2 m2 st2 : string)
    (s : State) (c : Code) (ctx ctx2 : Ctx) :
  same_scan ctx ctx2 ->
  fst (body K eol t m st disallowEol s c ctx)
  = fst (body K eol t2 m2 st2 disallowEol s c ctx2)
  /\ same_scan (snd (body K eol t m st disallowEol s c ctx))
       (snd (body K eol t2 m2 st2 disallowEol s c ctx2)).
Proof.
  destruct ctx as [sz b evs], ctx2 as [sz2 b2 evs2].
  intros (Hsz & Hb & Hc). cbn [size balance events] in Hsz, Hb, Hc.
  subst sz2 b2.
  destruct (body K eol t m st disallowEol s c _) as [o ctx'] eqn:E1.
  destruct (body K eol t2 m2 st2 disallowEol s c _) as [o2 ctx2'] eqn:E2.
  destruct s; unfold_tok; run_body E1; run_body E2;
    injection E1 as <- <-; injection E2 as <- <-;
    unfold same_scan; tidy; repeat split; gather Hc.
Qed.

Lemma call_ignores_tags (K : Constants) (eol : Code -> bool)
    (disallowEol : bool) (t m st t2 m2 st2 : string) (n : nat)
    (s : State) (c : Code) (ctx ctx2 : Ctx) :
  same_scan ctx ctx2 ->
  fst (call K eol t m st disallowEol n s c ctx)
  = fst (call K eol t2 m2 st2 disallowEol n s c ctx2)
  /\ same_scan (snd (call K eol t m st disallowEol n s c ctx))
       (snd (call K eol t2 m2 st2 disallowEol n s c ctx2)).
Proof.
  revert s ctx ctx2. induction n as [|n IH]; intros s ctx ctx2 Hsame.
  - now split.
  - cbn [call]. unfold bind.
    destruct (body_ignores_tags K eol disallowEol t m st t2 m2 st2 s c
                ctx ctx2 Hsame) as [Ho Hs].
    destruct (body K eol t m st disallowEol s c ctx) as [o ctx'].
    destruct (body K eol t2 m2 st2 disallowEol s c ctx2) as [o2 ctx2'].
    cbn [fst snd] in Ho, Hs. subst o2.
    destruct o; try (split; [reflexivity|exact Hs]).
    now apply IH.
Qed.

(** X13.  The tokenizer never looks at the span tags it was given, nor at
    the calls it has made: under any two choices of tags the result, the
    units left unread, the counters and the units consumed are the same. *)
Theorem tags_are_not_inspected (K : Constants) (eol : Code -> bool)
    (disallowEol : bool) (t m st t2 m2 st2 : string) (input : list Code) :
  fst (tokenize K eol t m st disallowEol input)
  = fst (tokenize K eol t2 m2 st2 disallowEol input)
  /\ same_scan (snd (tokenize K eol t m st disallowEol input))
       (snd (tokenize K eol t2 m2 st2 disallowEol input)).
Proof.
  unfold tokenize, createLabel; cbn [fst snd].
  assert (H0 : same_scan init init) by now repeat split.
  revert H0. generalize init at 1 3 5 as ctx. generalize init as ctx2.
  generalize Start as s.
  induction input as [|c input IH]; intros s ctx2 ctx Hsame.
  - now split.
  - cbn [run]. unfold feed.
    destruct (call_ignores_tags K eol disallowEol t m st t2 m2 st2 4 s c
                ctx ctx2 Hsame) as [Hr Hs].
    destruct (call K eol t m st disallowEol 4 s c ctx) as [r ctx'].
    destruct (call K eol t2 m2 st2 disallowEol 4 s c ctx2) as [r2 ctx2'].
    cbn [fst snd] in Hr, Hs. subst r2.
    destruct r as [[s1| |c1|msg]|]; try (split; [reflexivity|exact Hs]).
    now apply IH.
Qed.

(** ** The end of input *)

(** One unit keeps the consumed units free of the end-of-input unit. *)
Lemma feed_consumes_no_eof (K : Constants) (eol : Code -> bool)
    (type markerType stringType : string) (disallowEol : bool)
    (s : State) (c : Code) (ctx : Ctx) (r : Result) (ctx' : Ctx) :
  sane_codes K eol = true ->
  s <> AtClosingBrace ->
  Forall (fun u => u <> EOF K) (consumed (events ctx)) ->
  feed K eol type markerType stringType disallowEol s c ctx = (Some r, ctx') ->
  Forall (fun u => u <> EOF K) (consumed (events ctx')).
Proof.
  intros Hsane Hs Hall.
  apply (call_chain K eol type markerType stringType disallowEol c
           (fun s1 ctx1 =>
              consumed (events ctx1) = consumed (events ctx)
              /\ (s1 = AtClosingBrace -> c = closingSquareBracket K))
           (fun _ ctx1 =>
              Forall (fun u => u <> EOF K) (consumed (events ctx1))));
    [|now split].
  sane Hsane. revert Hall. generalize (consumed (events ctx)) as cs.
  clear s ctx r ctx' Hs Hsane. intros cs Hall.
  by_body; intros (Hc & Hacb); cbn [events] in Hc;
    repeat match goal with
           | |- _ /\ _ => split
           | |- _ = _ -> _ =>
               let Habs := fresh in intros Habs; try discriminate Habs
           end;
    try congruence; gather Hc; try assumption;
    try specialize (Hacb eq_refl).
  all: apply Forall_app; split; [assumption|].
  all: constructor; [congruence|constructor].
Qed.

(** X14.  The end-of-input unit is never consumed: in whatever state it
    arrives, and whatever came before it, it is not among the units the
    tokenizer has consumed. *)
Theorem eof_never_consumed (K : Constants) (eol : Code -> bool)
    (type markerType stringType : string) (disallowEol : bool)
    (input : list Code) :
  sane_codes K eol = true ->
  ~ In (EOF K)
      (consumed
         (events
            (snd (tokenize K eol type markerType stringType disallowEol
                    input)))).
Proof.
  intros Hsane Hin. unfold tokenize, createLabel in Hin; cbn [fst snd] in Hin.
  assert (Hall :
    Forall (fun u => u <> EOF K)
      (consumed
         (events
            (snd (run K eol type markerType stringType disallowEol
                    Start input init))))).
  { apply (run_keeps K eol type markerType stringType disallowEol
             (fun ctx => Forall (fun u => u <> EOF K)
                           (consumed (events ctx))));
      [|apply waiting_init|constructor].
    intros s c ctx r ctx' (Hs & _) Hall Hfeed.
    exact (feed_consumes_no_eof K eol type markerType stringType disallowEol
             s c ctx r ctx' Hsane Hs Hall Hfeed). }
  rewrite Forall_forall in Hall. now apply (Hall _ Hin).
Qed.

Lemma eof_never_consumed_witness :
  ~ In None [Some 91; Some 97].
Proof.
  apply (eof_never_consumed micromark markdownLineEnding
           "label" "marker" "string" false
           (units "[a" ++ None :: units "b]")).
  reflexivity.
Defined.
